(** * AirShield: the in-process task scheduler
    ([backend/app/services/scheduler_service.py])

    A shallow embedding of [SchedulerService]: the task records, the
    registry, the control operations, the executor, one iteration of the
    scheduler loop, the queries, the default tasks with their handlers and
    the life cycle of the service, followed by the properties of the
    scheduler's specification that were checked against it and by further
    properties read off the code.

    Modelling choices.
    - A task record is the Python dict built by [schedule_task]; its keys are
      the fields of [Task].  The key ["last_error"] is absent until the first
      failure, hence an [option].
    - [self.tasks] is an insertion-ordered dict whose iteration order drives
      the loop: an association list with unique keys, new keys appended.
      [self.task_handlers] is only ever tested, assigned and deleted by key:
      a [gmap].
    - Timestamps are naive UTC [datetime]s, counted in microseconds since
      0001-01-01T00:00:00; [timedelta]s are microseconds.  Both are bounded
      in Python and their arithmetic raises [OverflowError] out of range,
      which the code catches like any other [Exception].
    - The environment is passed explicitly: every reading of
      [datetime.utcnow()] and every outcome of awaiting a handler is an
      argument of the operation that consumes it.  A handler is opaque: it
      yields a result, raises, or is cancelled, and does not itself touch the
      registry.
    - Every operation runs to completion before the next one starts (the
      interleaving asyncio allows at the [await] of a handler is not
      modelled). *)

From stdpp Require Import gmap strings list.
From Stdlib Require Import ZArith Lia.

Local Open Scope Z_scope.

(** ** Python values returned by handlers *)

#[local] Unset Elimination Schemes.

Inductive PyValue : Type :=
| PyNone
| PyInt (n : Z)
| PyStr (s : string)
| PyDict (items : list (string * PyValue)).

#[local] Set Elimination Schemes.

(** ** [datetime] and [timedelta] *)

Module Py.

Definition datetime : Type := Z.
Definition timedelta : Type := Z.

Definition US_PER_SECOND : Z := 1000000.
Definition SECONDS_PER_DAY : Z := 86400.
(** [timedelta.max.days] *)
Definition MAX_DELTA_DAYS : Z := 999999999.
(** [datetime.max.toordinal()]: the day number of 9999-12-31. *)
Definition MAX_ORDINAL : Z := 3652059.

(** First instant after [datetime.max]. *)
Definition DATETIME_END : Z := MAX_ORDINAL * SECONDS_PER_DAY * US_PER_SECOND.

Definition representable (t : Z) : bool := (0 <=? t) && (t <? DATETIME_END).

(** [timedelta(seconds=s)] for an [int]: the value is normalised to days,
    seconds and microseconds, and [OverflowError] is raised when the day
    count leaves [-999999999 .. 999999999]. *)
Definition timedelta_seconds (s : Z) : option timedelta :=
  let days := s / SECONDS_PER_DAY in
  if (- MAX_DELTA_DAYS <=? days) && (days <=? MAX_DELTA_DAYS)
  then Some (s * US_PER_SECOND)
  else None.

(** [timedelta(minutes=m)] for the small constants of the source. *)
Definition timedelta_minutes (m : Z) : timedelta := m * 60 * US_PER_SECOND.

(** [t + d]: [OverflowError] when the result is not a [datetime]. *)
Definition datetime_add (t : datetime) (d : timedelta) : option datetime :=
  if representable (t + d) then Some (t + d) else None.

(** [str(e)] of the [OverflowError]s above, as CPython words them; no
    statement below depends on the wording. *)
Definition str_OverflowError_timedelta : string :=
  "days out of range; must have magnitude <= 999999999".
Definition str_OverflowError_datetime : string :=
  "date value out of range".

(** Truth value of an [Optional[int]]: [None] and [0] are false. *)
Definition truthy (o : option Z) : bool :=
  match o with
  | Some n => negb (n =? 0)
  | None => false
  end.

(** [now + timedelta(seconds=seconds)]: the new instant, or [str(e)] of the
    [OverflowError] raised on the way. *)
Definition after_seconds (now : datetime) (seconds : Z) : string + datetime :=
  match timedelta_seconds seconds with
  | Some delta =>
      match datetime_add now delta with
      | Some t => inr t
      | None => inl str_OverflowError_datetime
      end
  | None => inl str_OverflowError_timedelta
  end.

End Py.

Export Py.

(** ** Task records *)

Inductive TaskStatus : Type :=
| PENDING
| RUNNING
| COMPLETED
| FAILED
| CANCELLED.

Inductive TaskPriority : Type :=
| LOW
| NORMAL
| HIGH
| URGENT.

#[global] Instance TaskStatus_eq_dec : EqDecision TaskStatus.
Proof. solve_decision. Defined.

(** A handler is held by reference; the number identifies the callable. *)
Definition Callable : Type := nat.

Record Task : Type := mkTask {
  id : string;
  handler : Callable;
  next_run : datetime;
  interval_seconds : option Z;
  max_runs : option Z;
  run_count : Z;
  priority : TaskPriority;
  status : TaskStatus;
  created_at : datetime;
  last_run : option datetime;
  last_result : PyValue;
  last_error : option string
}.

(** [task[key] = v] for the keys the scheduler assigns to. *)

Definition set_status (v : TaskStatus) (task : Task) : Task :=
  mkTask (id task) (handler task) (next_run task) (interval_seconds task)
         (max_runs task) (run_count task) (priority task) v
         (created_at task) (last_run task) (last_result task) (last_error task).

Definition set_next_run (v : datetime) (task : Task) : Task :=
  mkTask (id task) (handler task) v (interval_seconds task)
         (max_runs task) (run_count task) (priority task) (status task)
         (created_at task) (last_run task) (last_result task) (last_error task).

Definition set_interval_seconds (v : option Z) (task : Task) : Task :=
  mkTask (id task) (handler task) (next_run task) v
         (max_runs task) (run_count task) (priority task) (status task)
         (created_at task) (last_run task) (last_result task) (last_error task).

Definition set_run_count (v : Z) (task : Task) : Task :=
  mkTask (id task) (handler task) (next_run task) (interval_seconds task)
         (max_runs task) v (priority task) (status task)
         (created_at task) (last_run task) (last_result task) (last_error task).

Definition set_last_run (v : option datetime) (task : Task) : Task :=
  mkTask (id task) (handler task) (next_run task) (interval_seconds task)
         (max_runs task) (run_count task) (priority task) (status task)
         (created_at task) v (last_result task) (last_error task).

Definition set_last_result (v : PyValue) (task : Task) : Task :=
  mkTask (id task) (handler task) (next_run task) (interval_seconds task)
         (max_runs task) (run_count task) (priority task) (status task)
         (created_at task) (last_run task) v (last_error task).

Definition set_last_error (v : option string) (task : Task) : Task :=
  mkTask (id task) (handler task) (next_run task) (interval_seconds task)
         (max_runs task) (run_count task) (priority task) (status task)
         (created_at task) (last_run task) (last_result task) v.

(** ** The registry: an insertion-ordered dict of task records *)

Module Registry.

Definition t : Type := list (string * Task).

(** [d[key]], and [key in d] when the result is [Some]. *)
Fixpoint get (key : string) (d : t) : option Task :=
  match d with
  | [] => None
  | (k, task) :: rest => if decide (k = key) then Some task else get key rest
  end.

(** Mutation, in place, of the record stored under [key]. *)
Fixpoint update (key : string) (f : Task -> Task) (d : t) : t :=
  match d with
  | [] => []
  | (k, task) :: rest =>
      if decide (k = key) then (k, f task) :: rest
      else (k, task) :: update key f rest
  end.

(** [d[key] = task] for a key that is not in [d]. *)
Definition add (key : string) (task : Task) (d : t) : t := d ++ [(key, task)].

Definition keys (d : t) : list string := d.*1.

End Registry.

Record SchedulerService : Type := mkScheduler {
  tasks : Registry.t;
  task_handlers : gmap string Callable
}.

(** [SchedulerService.__init__] *)
Definition init : SchedulerService := mkScheduler [] ∅.

(** ** What the environment contributes to one execution *)

(** The exceptions the scheduler tells apart: [asyncio.CancelledError], and
    every [Exception] [e], of which it keeps [str(e)]. *)
Inductive PyException : Type :=
| Exception (message : string)
| CancelledError.

(** What awaiting [task["handler"]()] does. *)
Inductive Outcome : Type :=
| Returned (result : PyValue)
| Raised (e : PyException).

Record Run : Type := mkRun {
  started : datetime;      (* [datetime.utcnow()] before the handler is called *)
  outcome : Outcome;
  finished : datetime      (* [datetime.utcnow()] read after it returned *)
}.

(** ** [_execute_task] *)

(** [task["max_runs"] and task["run_count"] >= task["max_runs"]] *)
Definition max_runs_reached (task : Task) : bool :=
  match max_runs task with
  | Some m => truthy (Some m) && (m <=? run_count task)
  | None => false
  end.

(** The body of the [try]: the record as it is when control leaves the
    body, and the exception that leaves it, if any.  Assignments made before
    an exception is raised stay in the record. *)
Definition execute_body (run : Run) (task : Task) : Task * option PyException :=
  let task := set_status RUNNING task in
  let task := set_last_run (Some (started run)) task in
  match outcome run with
  | Raised e => (task, Some e)
  | Returned result =>
      let task := set_last_result result task in
      let task := set_run_count (run_count task + 1) task in
      if max_runs_reached task then (set_status COMPLETED task, None)
      else
        match interval_seconds task with
        | Some seconds =>
            if truthy (Some seconds) then
              match after_seconds (finished run) seconds with
              | inr t => (set_status PENDING (set_next_run t task), None)
              | inl message => (task, Some (Exception message))
              end
            else (set_status COMPLETED task, None)
        | None => (set_status COMPLETED task, None)
        end
  end.

(** The [try] with its two [except] clauses; nothing is re-raised. *)
Definition _execute_task (run : Run) (task : Task) : Task :=
  match execute_body run task with
  | (task, None) => task
  | (task, Some CancelledError) => set_status CANCELLED task
  | (task, Some (Exception message)) =>
      set_last_error (Some message) (set_status FAILED task)
  end.

(** ** Control operations

    Each of them wraps its body in [try ... except Exception: return False].
    On records built by [schedule_task] the bodies below cannot raise, save
    for the [datetime] addition in [resume_task]. *)

Definition with_tasks (d : Registry.t) (self : SchedulerService) : SchedulerService :=
  mkScheduler d (task_handlers self).

Definition schedule_task (task_id : string) (task_handler : Callable)
    (start_time : datetime) (interval_seconds max_runs : option Z)
    (priority : TaskPriority) (now : datetime) (self : SchedulerService)
  : SchedulerService * bool :=
  match Registry.get task_id (tasks self) with
  | Some _ => (self, false)
  | None =>
      let task := mkTask task_id task_handler start_time interval_seconds
                         max_runs 0 priority PENDING now None PyNone None in
      (mkScheduler (Registry.add task_id task (tasks self))
                   (<[task_id := task_handler]> (task_handlers self)),
       true)
  end.

Definition cancel_task (task_id : string) (self : SchedulerService)
  : SchedulerService * bool :=
  match Registry.get task_id (tasks self) with
  | None => (self, false)
  | Some _ =>
      (mkScheduler (Registry.update task_id (set_status CANCELLED) (tasks self))
                   (delete task_id (task_handlers self)),
       true)
  end.

Definition pause_task (task_id : string) (self : SchedulerService)
  : SchedulerService * bool :=
  match Registry.get task_id (tasks self) with
  | None => (self, false)
  | Some task =>
      if decide (status task = PENDING)
      then (with_tasks (Registry.update task_id (set_status CANCELLED) (tasks self)) self,
            true)
      else (self, false)
  end.

(** [now] is the reading of [datetime.utcnow()], taken only when
    [new_start_time] is omitted.  The status is assigned before the new
    [next_run] is computed, so an overflow of [now + 5 minutes] leaves the
    task [PENDING] and makes the call return [False]. *)
Definition resume_task (task_id : string) (new_start_time : option datetime)
    (now : datetime) (self : SchedulerService) : SchedulerService * bool :=
  match Registry.get task_id (tasks self) with
  | None => (self, false)
  | Some task =>
      if decide (status task = CANCELLED) then
        let start :=
          match new_start_time with
          | Some t => Some t
          | None => datetime_add now (timedelta_minutes 5)
          end in
        match start with
        | Some t =>
            (with_tasks (Registry.update task_id
                           (fun task => set_next_run t (set_status PENDING task))
                           (tasks self)) self,
             true)
        | None =>
            (with_tasks (Registry.update task_id (set_status PENDING) (tasks self)) self,
             false)
        end
      else (self, false)
  end.

Definition reschedule_task (task_id : string) (new_start_time : datetime)
    (new_interval : option Z) (self : SchedulerService) : SchedulerService * bool :=
  match Registry.get task_id (tasks self) with
  | None => (self, false)
  | Some _ =>
      let reschedule (task : Task) : Task :=
        let task := set_next_run new_start_time task in
        let task := if truthy new_interval
                    then set_interval_seconds new_interval task else task in
        set_status PENDING task in
      (with_tasks (Registry.update task_id reschedule (tasks self)) self, true)
  end.

(** ** Handler invocations, as observed from outside *)

Inductive Dispatcher : Type :=
| ByLoop
| ByForceRun.

#[global] Instance Dispatcher_eq_dec : EqDecision Dispatcher.
Proof. solve_decision. Defined.

Record Invocation : Type := Invoked {
  dispatcher : Dispatcher;
  invoked_task : string;
  invoked_handler : Callable
}.

Definition force_run_task (task_id : string) (run : Run) (self : SchedulerService)
  : SchedulerService * bool * list Invocation :=
  match Registry.get task_id (tasks self) with
  | None => (self, false, [])
  | Some task =>
      (with_tasks (Registry.update task_id (_execute_task run) (tasks self)) self,
       true,
       [Invoked ByForceRun task_id (handler task)])
  end.

(** ** One iteration of [_scheduler_loop] *)

Definition is_due (current_time : datetime) (task : Task) : bool :=
  bool_decide (status task = PENDING) && (next_run task <=? current_time).

(** The [for] loop over [list(self.tasks.items())].  The snapshot holds the
    registry's own record objects, so executing a task mutates the registry
    entry; [runs task_id] is what the environment contributes when
    [task_id] is executed in this iteration. *)
Fixpoint scan (current_time : datetime) (runs : string -> Run)
    (snapshot : Registry.t) : Registry.t * list Invocation :=
  match snapshot with
  | [] => ([], [])
  | (task_id, task) :: rest =>
      let '(rest', log) := scan current_time runs rest in
      if is_due current_time task
      then ((task_id, _execute_task (runs task_id) task) :: rest',
            Invoked ByLoop task_id (handler task) :: log)
      else ((task_id, task) :: rest', log)
  end.

Definition scheduler_loop_iteration (current_time : datetime)
    (runs : string -> Run) (self : SchedulerService)
  : SchedulerService * list Invocation :=
  let '(tasks', log) := scan current_time runs (tasks self) in
  (with_tasks tasks' self, log).

(** ** Histories of calls *)

Inductive Call : Type :=
| Schedule (task_id : string) (task_handler : Callable) (start_time : datetime)
           (interval_seconds max_runs : option Z) (priority : TaskPriority)
           (now : datetime)
| Cancel (task_id : string)
| Pause (task_id : string)
| Resume (task_id : string) (new_start_time : option datetime) (now : datetime)
| Reschedule (task_id : string) (new_start_time : datetime) (new_interval : option Z)
| ForceRun (task_id : string) (run : Run)
| Tick (current_time : datetime) (runs : string -> Run).

Definition perform (call : Call) (self : SchedulerService)
  : SchedulerService * list Invocation :=
  match call with
  | Schedule task_id h start iv mr prio now =>
      ((schedule_task task_id h start iv mr prio now self).1, [])
  | Cancel task_id => ((cancel_task task_id self).1, [])
  | Pause task_id => ((pause_task task_id self).1, [])
  | Resume task_id start now => ((resume_task task_id start now self).1, [])
  | Reschedule task_id start iv => ((reschedule_task task_id start iv self).1, [])
  | ForceRun task_id run =>
      let '(self', _, log) := force_run_task task_id run self in (self', log)
  | Tick current_time runs => scheduler_loop_iteration current_time runs self
  end.

Fixpoint perform_all (calls : list Call) (self : SchedulerService)
  : SchedulerService * list Invocation :=
  match calls with
  | [] => (self, [])
  | call :: rest =>
      let '(self', log) := perform call self in
      let '(self'', log') := perform_all rest self' in
      (self'', log ++ log')
  end.

(** ** Vocabulary for statements about histories *)

(** [self.tasks] never holds a key twice. *)
Definition wf (self : SchedulerService) : Prop :=
  NoDup (Registry.keys (tasks self)).

Definition status_of (task_id : string) (self : SchedulerService) : option TaskStatus :=
  status <$> Registry.get task_id (tasks self).

Definition is_cancel_of (task_id : string) (call : Call) : bool :=
  match call with
  | Cancel k => bool_decide (k = task_id)
  | _ => false
  end.

Definition is_resume_of (task_id : string) (call : Call) : bool :=
  match call with
  | Resume k _ _ => bool_decide (k = task_id)
  | _ => false
  end.

Definition is_reschedule_of (task_id : string) (call : Call) : bool :=
  match call with
  | Reschedule k _ _ => bool_decide (k = task_id)
  | _ => false
  end.

Definition is_force_run_of (task_id : string) (call : Call) : bool :=
  match call with
  | ForceRun k _ => bool_decide (k = task_id)
  | _ => false
  end.

(** The invocations of the handler of [task_id], and those of them made by
    the loop. *)
Definition invocations_of (task_id : string) (log : list Invocation) : list Invocation :=
  filter (fun inv => invoked_task inv = task_id) log.

Definition loop_invocations_of (task_id : string) (log : list Invocation)
  : list Invocation :=
  filter (fun inv => dispatcher inv = ByLoop) (invocations_of task_id log).

(** ** The specification's wording of the statements that the code refines
    differently *)

(** §4.3 step 3, read literally: "set" means "not None". *)
Definition claimed_success (run : Run) (task : Task) (result : PyValue) : Prop :=
  outcome run = Returned result ->
  let task' := _execute_task run task in
  let recur :=
    match interval_seconds task with
    | Some seconds =>
        next_run task' = finished run + seconds * US_PER_SECOND /\
        status task' = PENDING
    | None => status task' = COMPLETED
    end in
  last_result task' = result /\
  run_count task' = run_count task + 1 /\
  match max_runs task with
  | Some m => if m <=? run_count task' then status task' = COMPLETED else recur
  | None => recur
  end.

(** §4.3 step 4: a [FAILED] task is dispatched again by the loop only after
    a [reschedule()]. *)
Definition claimed_failed_is_final (task_id : string) (self : SchedulerService)
    (history : list Call) : Prop :=
  Forall (fun call => is_reschedule_of task_id call = false) history ->
  loop_invocations_of task_id (perform_all history self).2 = [].

(** §4.1 [cancel]: terminal states are not transitioned. *)
Definition terminal (s : TaskStatus) : bool :=
  match s with
  | COMPLETED | FAILED | CANCELLED => true
  | PENDING | RUNNING => false
  end.

Definition claimed_cancel (task_id : string) (self : SchedulerService) : Prop :=
  let '(self', ok) := cancel_task task_id self in
  match Registry.get task_id (tasks self) with
  | None => ok = false
  | Some task =>
      if terminal (status task)
      then status_of task_id self' = Some (status task)
      else status_of task_id self' = Some CANCELLED
  end.

(** §4.1 [resume] with §8: the resulting [next_run] is not in the past. *)
Definition claimed_resume (task_id : string) (new_start_time : option datetime)
    (now : datetime) (self : SchedulerService) : Prop :=
  let '(self', ok) := resume_task task_id new_start_time now self in
  match Registry.get task_id (tasks self) with
  | Some task =>
      if decide (status task = CANCELLED) then
        ok = true /\
        exists task', Registry.get task_id (tasks self') = Some task' /\
          status task' = PENDING /\
          next_run task' = default (now + timedelta_minutes 5) new_start_time /\
          now <= next_run task'
      else ok = false /\ self' = self
  | None => ok = false /\ self' = self
  end.

(** §8, the concrete scenario: the calls, and what is said to hold after
    them.  [early] are the loop iterations that come before [T0], each with
    its time and the runs it would be given. *)
Definition ticks (iterations : list (datetime * (string -> Run))) : list Call :=
  (fun iteration => Tick iteration.1 iteration.2) <$> iterations.

Definition cleanup_scenario (H : Callable) (T0 now : datetime)
    (early : list (datetime * (string -> Run)))
    (current_time : datetime) (runs : string -> Run) : list Call :=
  Schedule "cleanup" H T0 (Some 86400) None NORMAL now
    :: ticks early ++ [Tick current_time runs].

Definition deleted_5 : PyValue := PyDict [("deleted"%string, PyInt 5)].

Definition claimed_cleanup (T0 : datetime) (task : Task) : Prop :=
  run_count task = 1 /\
  status task = PENDING /\
  next_run task = T0 + 86400 * US_PER_SECOND /\
  last_result task = deleted_5.

(** §8 and §4.1: after [cancel()] the status is [CANCELLED] and no loop
    iteration invokes the handler again unless [resume()] or [reschedule()]
    was called. *)
Definition claimed_cancel_is_final (task_id : string) (self : SchedulerService)
    (history : list Call) : Prop :=
  let self' := (cancel_task task_id self).1 in
  status_of task_id self' = Some CANCELLED /\
  (Forall (fun call => is_resume_of task_id call || is_reschedule_of task_id call = false)
          history ->
   loop_invocations_of task_id (perform_all history self').2 = []).

(** ** Concrete data for the examples *)

(** Midnight of the day with proleptic Gregorian ordinal [day], plus
    [seconds]. *)
Definition utc (day seconds : Z) : datetime :=
  ((day - 1) * SECONDS_PER_DAY + seconds) * US_PER_SECOND.

(** 2024-01-01T00:00:00 *)
Definition T2024 : datetime := utc 738886 0.

Definition ok_run (at_ : datetime) (result : PyValue) : Run :=
  mkRun at_ (Returned result) (at_ + US_PER_SECOND).

Definition failing_run (at_ : datetime) : Run :=
  mkRun at_ (Raised (Exception "database is locked")) (at_ + US_PER_SECOND).

(** A recurring task whose [max_runs] is 0, about to complete a run. *)
Definition zero_max_runs_task : Task :=
  mkTask "job" 1%nat T2024 (Some 60) (Some 0) 0 NORMAL PENDING T2024 None PyNone None.

(** A one-shot task after its only run. *)
Definition completed_state : SchedulerService :=
  (perform_all [Schedule "job" 1%nat T2024 None None NORMAL T2024;
                Tick (utc 738886 30) (fun _ => ok_run (utc 738886 30) PyNone)]
               init).1.

(** A recurring task after a failed run. *)
Definition failed_state : SchedulerService :=
  (perform_all [Schedule "job" 1%nat T2024 (Some 60) None NORMAL T2024;
                Tick (utc 738886 30) (fun _ => failing_run (utc 738886 30))]
               init).1.

(** A recurring task, scheduled and not yet run. *)
Definition pending_state : SchedulerService :=
  (perform_all [Schedule "job" 1%nat T2024 (Some 60) None NORMAL T2024] init).1.

(** The same task, cancelled. *)
Definition cancelled_state : SchedulerService :=
  (cancel_task "job" pending_state).1.

(** Two histories without [reschedule()], and without [resume()] in the
    second, that bring a task back to the loop. *)
Definition cancel_then_resume : list Call :=
  [Cancel "job";
   Resume "job" None (utc 738886 60);
   Tick (utc 738886 400) (fun _ => ok_run (utc 738886 400) PyNone)].

Definition force_run_then_tick : list Call :=
  [ForceRun "job" (ok_run (utc 738886 10) PyNone);
   Tick (utc 738886 400) (fun _ => ok_run (utc 738886 400) PyNone)].

(** ** Queries: [get_task_status] and [get_all_tasks] *)

(** A copy of a task record from which the key ["handler"] was deleted. *)
Record TaskInfo : Type := mkTaskInfo {
  info_id : string;
  info_next_run : datetime;
  info_interval_seconds : option Z;
  info_max_runs : option Z;
  info_run_count : Z;
  info_priority : TaskPriority;
  info_status : TaskStatus;
  info_created_at : datetime;
  info_last_run : option datetime;
  info_last_result : PyValue;
  info_last_error : option string
}.

(** [task.copy()] followed by [del task["handler"]] *)
Definition without_handler (task : Task) : TaskInfo :=
  mkTaskInfo (id task) (next_run task) (interval_seconds task) (max_runs task)
             (run_count task) (priority task) (status task) (created_at task)
             (last_run task) (last_result task) (last_error task).

Definition get_task_status (task_id : string) (self : SchedulerService)
  : option TaskInfo :=
  match Registry.get task_id (tasks self) with
  | Some task => Some (without_handler task)
  | None => None
  end.

Fixpoint get_all_tasks_from (items : Registry.t) : list TaskInfo :=
  match items with
  | [] => []
  | (_, task) :: rest => without_handler task :: get_all_tasks_from rest
  end.

Definition get_all_tasks (self : SchedulerService) : list TaskInfo :=
  get_all_tasks_from (tasks self).

(** ** The default tasks and their handlers *)

(** What happens inside the [try] of a default handler: it runs through,
    or an [Exception] [e] with [str(e) = message] is raised in it (by an
    import, by a collaborating service), or it is cancelled at one of its
    [await]s; [asyncio.CancelledError] is not an [Exception] and passes the
    [except Exception] clause. *)
Inductive Attempt : Type :=
| RunsThrough
| Fails (message : string)
| Interrupted.

Definition handler_result (on_success : PyValue) (attempt : Attempt) : Outcome :=
  match attempt with
  | RunsThrough => Returned on_success
  | Fails message => Returned (PyDict [("error"%string, PyStr message)])
  | Interrupted => Raised CancelledError
  end.

(** [deleted_count = 0] is a placeholder in the source. *)
Definition _cleanup_old_data (attempt : Attempt) : Outcome :=
  handler_result (PyDict [("deleted_records"%string, PyInt 0)]) attempt.

Definition _retrain_prediction_models (attempt : Attempt) : Outcome :=
  handler_result (PyDict [("status"%string, PyStr "initiated")]) attempt.

(** [offline_sensors = []] is a placeholder in the source; its length is 0. *)
Definition _check_sensor_status (attempt : Attempt) : Outcome :=
  handler_result (PyDict [("offline_sensors"%string, PyInt 0)]) attempt.

Definition _cleanup_notifications (attempt : Attempt) : Outcome :=
  handler_result (PyDict [("cleaned_notifications"%string, PyInt 0)]) attempt.

(** The references to the four bound methods. *)
Definition ref_cleanup_old_data : Callable := 101%nat.
Definition ref_retrain_prediction_models : Callable := 102%nat.
Definition ref_check_sensor_status : Callable := 103%nat.
Definition ref_cleanup_notifications : Callable := 104%nat.

Definition timedelta_hours (h : Z) : timedelta := h * 3600 * US_PER_SECOND.

(** [_schedule_default_tasks].  [utcnow n] is the reading of the clock at
    the [n]-th place where the text of the method (with [schedule_task]
    inlined) calls [datetime.utcnow()]: even [n] for a start time, odd [n]
    for [created_at].  An [OverflowError] in the computation of a start time
    leaves the [try], so the tasks after it are not scheduled; the result of
    [schedule_task] is ignored. *)
Definition _schedule_default_tasks (utcnow : nat -> datetime)
    (self : SchedulerService) : SchedulerService :=
  match datetime_add (utcnow 0%nat) (timedelta_hours 1) with
  | None => self
  | Some start_time =>
  let self := (schedule_task "cleanup_old_data" ref_cleanup_old_data start_time
                 (Some 86400) None LOW (utcnow 1%nat) self).1 in
  match datetime_add (utcnow 2%nat) (timedelta_hours 2) with
  | None => self
  | Some start_time =>
  let self := (schedule_task "retrain_models" ref_retrain_prediction_models start_time
                 (Some 604800) None NORMAL (utcnow 3%nat) self).1 in
  match datetime_add (utcnow 4%nat) (timedelta_minutes 5) with
  | None => self
  | Some start_time =>
  let self := (schedule_task "check_sensor_status" ref_check_sensor_status start_time
                 (Some 300) None HIGH (utcnow 5%nat) self).1 in
  match datetime_add (utcnow 6%nat) (timedelta_hours 6) with
  | None => self
  | Some start_time =>
  (schedule_task "cleanup_notifications" ref_cleanup_notifications start_time
     (Some 86400) None LOW (utcnow 7%nat) self).1
  end end end end.

Definition default_task_ids : list string :=
  ["cleanup_old_data"; "retrain_models"; "check_sensor_status";
   "cleanup_notifications"]%string.

(** ** The life cycle: [initialize], [shutdown] and the guard of the loop *)

(** The asyncio task that runs [_scheduler_loop]. *)
Inductive LoopTask : Type :=
| LoopActive
| LoopCancelled.

(** The whole object: the registry with the two attributes that steer the
    loop. *)
Record Service : Type := mkService {
  scheduler : SchedulerService;
  is_running : bool;
  scheduler_task : option LoopTask
}.

(** [SchedulerService()] *)
Definition new_service : Service := mkService init false None.

Definition initialize (utcnow : nat -> datetime) (svc : Service) : Service :=
  mkService (_schedule_default_tasks utcnow (scheduler svc)) true (Some LoopActive).



(** One turn of [while self.is_running:] in a loop task that was not
    cancelled. *)
Definition scheduler_loop_turn (current_time : datetime) (runs : string -> Run)
    (svc : Service) : Service * list Invocation :=
  match scheduler_task svc with
  | Some LoopActive =>
      if is_running svc then
        let '(self', log) :=
          scheduler_loop_iteration current_time runs (scheduler svc) in
        (mkService self' (is_running svc) (scheduler_task svc), log)
      else (svc, [])
  | _ => (svc, [])
  end.

(** ** Vocabulary for the further properties *)

(** The fields no method assigns to after [schedule_task]. *)
Definition same_identity (task task' : Task) : Prop :=
  id task' = id task /\ handler task' = handler task /\
  max_runs task' = max_runs task /\ priority task' = priority task /\
  created_at task' = created_at task.

(** A task below its positive [max_runs]: it has not run more often than
    allowed, and has runs left as long as it may still be dispatched. *)
Definition within_limit (task : Task) : Prop :=
  forall m, max_runs task = Some m -> 0 < m ->
    run_count task <= m /\
    (status task = PENDING \/ status task = CANCELLED -> run_count task < m).

(** Calls that only the loop, [schedule], [pause] and [resume] make to a
    task: no [cancel], [reschedule] or [force_run] of it. *)
Definition is_gentle_for (task_id : string) (call : Call) : bool :=
  negb (is_cancel_of task_id call || is_reschedule_of task_id call
        || is_force_run_of task_id call).

(** Loop iterations, each with its starting time and the runs it is given,
    in which the recurring task [task_id] is due and its handler returns:
    [due] is the task's [next_run] before the first of them, and every
    completion time plus [seconds] is a [datetime]. *)
Fixpoint well_spaced (task_id : string) (seconds : Z) (due : datetime)
    (iterations : list (datetime * (string -> Run))) : Prop :=
  match iterations with
  | [] => True
  | (current_time, runs) :: rest =>
      due <= current_time /\
      (exists result, outcome (runs task_id) = Returned result) /\
      representable (finished (runs task_id) + seconds * US_PER_SECOND) = true /\
      well_spaced task_id seconds (finished (runs task_id) + seconds * US_PER_SECOND) rest
  end.

(** * Properties *)

(** ** The registry *)

Section RegistryFacts.

Implicit Types (d : Registry.t) (k : string) (f : Task -> Task).

Lemma get_update d k k' f :
  Registry.get k' (Registry.update k f d) =
  if decide (k = k') then f <$> Registry.get k d else Registry.get k' d.
Proof.
  induction d as [|[k0 task] d IH]; simpl; [by case_decide|].
  destruct (decide (k0 = k)) as [->|Hk0]; simpl; [|rewrite IH];
    repeat (case_decide; simplify_eq/=); done.
Qed.

Lemma get_update_eq d k f :
  Registry.get k (Registry.update k f d) = f <$> Registry.get k d.
Proof. by rewrite get_update, decide_True. Qed.

Lemma get_update_ne d k k' f :
  k <> k' -> Registry.get k' (Registry.update k f d) = Registry.get k' d.
Proof. intros. by rewrite get_update, decide_False. Qed.

Lemma get_add d k k' task :
  Registry.get k' (Registry.add k task d) =
  match Registry.get k' d with
  | Some found => Some found
  | None => if decide (k = k') then Some task else None
  end.
Proof.
  unfold Registry.add. induction d as [|[k0 task0] d IH]; simpl; [done|].
  destruct (decide (k0 = k')); [done | exact IH].
Qed.

Lemma get_None d k : Registry.get k d = None <-> k ∉ Registry.keys d.
Proof.
  unfold Registry.keys. induction d as [|[k0 task] d IH]; simpl.
  - split; [intros _; apply not_elem_of_nil | done].
  - rewrite not_elem_of_cons. case_decide; subst.
    + split; [done | by intros [? _]].
    + rewrite IH. split; [intros Hd; split; [congruence | exact Hd] | intros [_ Hd]; exact Hd].
Qed.

Lemma elem_get d k task : NoDup (Registry.keys d) -> (k, task) ∈ d -> Registry.get k d = Some task.
Proof.
  unfold Registry.keys. induction d as [|[k0 task0] d IH]; simpl.
  - by intros _ ?%elem_of_nil.
  - rewrite NoDup_cons. intros [Hk0 Hd] [[= -> ->]|Hin]%elem_of_cons.
    + by rewrite decide_True.
    + rewrite decide_False; [auto|].
      intros ->. apply Hk0. apply list_elem_of_fmap. by exists (k, task).
Qed.

Lemma keys_update d k f : Registry.keys (Registry.update k f d) = Registry.keys d.
Proof.
  unfold Registry.keys. induction d as [|[k0 task] d IH]; simpl; [done|].
  case_decide; simpl; by f_equal.
Qed.

Lemma keys_add d k task : Registry.keys (Registry.add k task d) = Registry.keys d ++ [k].
Proof. unfold Registry.keys, Registry.add. by rewrite fmap_app. Qed.

End RegistryFacts.

(** ** Task records and the executor *)

Section ExecutorFacts.

Implicit Types (task : Task) (run : Run).

Lemma execute_run_count run task :
  run_count (_execute_task run task) =
  match outcome run with
  | Returned _ => run_count task + 1
  | _ => run_count task
  end.
Proof.
  unfold _execute_task, execute_body.
  repeat (case_match; simplify_eq/=); done.
Qed.

Lemma execute_raised run task message :
  outcome run = Raised (Exception message) ->
  _execute_task run task =
  set_last_error (Some message)
    (set_status FAILED (set_last_run (Some (started run)) (set_status RUNNING task))).
Proof. unfold _execute_task, execute_body. by intros ->. Qed.

Lemma after_seconds_inr now seconds t :
  after_seconds now seconds = inr t <->
  t = now + seconds * US_PER_SECOND /\
  - MAX_DELTA_DAYS <= seconds / SECONDS_PER_DAY <= MAX_DELTA_DAYS /\
  0 <= t < DATETIME_END.
Proof.
  unfold after_seconds, timedelta_seconds. simpl.
  set (days := seconds / SECONDS_PER_DAY).
  destruct ((- MAX_DELTA_DAYS <=? days) && (days <=? MAX_DELTA_DAYS)) eqn:Hdays.
  - unfold datetime_add, representable.
    set (sum := now + seconds * US_PER_SECOND).
    destruct ((0 <=? sum) && (sum <? DATETIME_END)) eqn:Hsum;
      rewrite ?andb_true_iff, ?andb_false_iff, ?Z.leb_le, ?Z.ltb_lt, ?Z.leb_gt, ?Z.ltb_ge in *.
    + split; [intros [= <-] | intros (-> & _ & _)]; auto.
    + split; [done | intros (-> & _ & ?); lia].
  - rewrite andb_false_iff, Z.leb_gt, Z.leb_gt in Hdays.
    split; [done | intros (_ & ? & _); lia].
Qed.

Lemma after_seconds_representable now seconds :
  is_Some (timedelta_seconds seconds) ->
  representable (now + seconds * US_PER_SECOND) = true ->
  after_seconds now seconds = inr (now + seconds * US_PER_SECOND).
Proof.
  unfold after_seconds, datetime_add, timedelta_seconds.
  intros [delta Hdelta] Hsum. case_match; [|done].
  injection Hdelta as <-. by rewrite Hsum.
Qed.

Lemma max_runs_reached_iff task :
  max_runs_reached task = true <->
  exists m, max_runs task = Some m /\ m <> 0 /\ m <= run_count task.
Proof.
  unfold max_runs_reached, truthy. destruct (max_runs task) as [m|].
  - rewrite andb_true_iff, negb_true_iff, Z.eqb_neq, Z.leb_le. split.
    + intros [? ?]. by exists m.
    + by intros (? & [= <-] & ? & ?).
  - split; [done | by intros (? & [=] & _)].
Qed.

End ExecutorFacts.

(** ** The executor on success (C1) *)

(** C1, as worded, fails: with [max_runs = 0] and an interval, a successful
    run leaves the task [PENDING], although [max_runs] is set and
    [run_count >= max_runs]. *)
Lemma success_with_zero_max_runs :
  ~ claimed_success (ok_run T2024 PyNone) zero_max_runs_task PyNone.
Proof.
  intros Hclaim. specialize (Hclaim eq_refl).
  vm_compute in Hclaim. destruct Hclaim as (_ & _ & Hstatus). discriminate Hstatus.
Qed.

(** C1, amended.  When the handler returns [result], the executor stores it
    in [last_result] and adds exactly 1 to [run_count]; then, if [max_runs]
    is set and non-zero and the new [run_count] has reached it, the status is
    [COMPLETED]; otherwise, if the interval is set and non-zero and
    completion time plus interval is a representable [datetime], [next_run]
    is that instant and the status is [PENDING]; otherwise, if the interval
    is unset or zero, the status is [COMPLETED]. *)
Theorem execute_task_success (run : Run) (task : Task) (result : PyValue) :
  outcome run = Returned result ->
  let task' := _execute_task run task in
  let limit_reached :=
    exists m, max_runs task = Some m /\ m <> 0 /\ m <= run_count task + 1 in
  last_result task' = result /\
  run_count task' = run_count task + 1 /\
  (limit_reached -> status task' = COMPLETED) /\
  (~ limit_reached ->
   forall seconds, interval_seconds task = Some seconds -> seconds <> 0 ->
     is_Some (timedelta_seconds seconds) ->
     representable (finished run + seconds * US_PER_SECOND) = true ->
     next_run task' = finished run + seconds * US_PER_SECOND /\
     status task' = PENDING) /\
  (~ limit_reached ->
   interval_seconds task = None \/ interval_seconds task = Some 0 ->
   status task' = COMPLETED).
Proof.
  intros Hout task' limit_reached. subst task'.
  unfold _execute_task, execute_body. rewrite Hout.
  set (task1 := set_run_count _ _).
  assert (limit_reached <-> max_runs_reached task1 = true) as Hlimit
    by (rewrite max_runs_reached_iff; reflexivity).
  destruct (max_runs_reached task1) eqn:Hreached.
  { split_and!; try done; try (intros Hnot; exfalso; apply Hnot, Hlimit; done). }
  assert (~ limit_reached) as Hnot by (rewrite Hlimit; done).
  change (interval_seconds task1) with (interval_seconds task).
  destruct (interval_seconds task) as [seconds|] eqn:Hinterval.
  - destruct (decide (seconds = 0)) as [->|Hnonzero]; simpl.
    + split_and!; try done. intros _ seconds' [= <-] Hne. done.
    + rewrite (proj2 (Z.eqb_neq seconds 0) Hnonzero). simpl.
      split_and!.
      * by destruct (after_seconds _ _).
      * by destruct (after_seconds _ _).
      * done.
      * intros _ seconds' [= <-] _ Hdelta Hsum.
        by rewrite after_seconds_representable.
      * intros _ [[=] | [= ->]]. done.
  - simpl. split_and!; done.
Qed.

(** The theorem at work: a recurring task without [max_runs], completing at
    12:00:01 on 2024-01-01, is due again a minute later. *)
Lemma execute_task_success_witness :
  let run := ok_run (utc 738886 43200) deleted_5 in
  let task := mkTask "job" 1%nat T2024 (Some 60) None 0 NORMAL PENDING T2024
                     None PyNone None in
  last_result (_execute_task run task) = deleted_5 /\
  run_count (_execute_task run task) = 1 /\
  next_run (_execute_task run task) = utc 738886 43261 /\
  status (_execute_task run task) = PENDING.
Proof.
  intros run task.
  destruct (execute_task_success run task deleted_5 eq_refl)
    as (Hresult & Hcount & _ & Hrecur & _).
  split; [exact Hresult|]. split; [exact Hcount|].
  apply (Hrecur ltac:(by intros (m & [=] & _)) 60 eq_refl ltac:(lia)
           ltac:(by eexists) eq_refl).
Defined.

(** ** One loop iteration *)

Section LoopFacts.

Implicit Types (d : Registry.t) (k : string) (runs : string -> Run).

Lemma scan_cons current_time runs k task d :
  scan current_time runs ((k, task) :: d) =
  if is_due current_time task
  then ((k, _execute_task (runs k) task) :: (scan current_time runs d).1,
        Invoked ByLoop k (handler task) :: (scan current_time runs d).2)
  else ((k, task) :: (scan current_time runs d).1, (scan current_time runs d).2).
Proof. simpl. destruct (scan current_time runs d). by case_match. Qed.

Lemma keys_scan current_time runs d :
  Registry.keys (scan current_time runs d).1 = Registry.keys d.
Proof.
  unfold Registry.keys. induction d as [|[k task] d IH]; [done|].
  rewrite scan_cons. case_match; simpl; by f_equal.
Qed.

(** A task is executed if it is due, and left alone otherwise, whatever
    happens to the tasks scanned before it. *)
Lemma get_scan current_time runs d k :
  Registry.get k (scan current_time runs d).1 =
  (fun task => if is_due current_time task
               then _execute_task (runs k) task else task) <$> Registry.get k d.
Proof.
  induction d as [|[k0 task] d IH]; [done|].
  rewrite scan_cons.
  destruct (is_due current_time task) eqn:Hdue; simpl;
    (destruct (decide (k0 = k)) as [->|]; simpl; [by rewrite Hdue | exact IH]).
Qed.

Lemma scan_invokes_due current_time runs d k task :
  Registry.get k d = Some task -> is_due current_time task = true ->
  Invoked ByLoop k (handler task) ∈ (scan current_time runs d).2.
Proof.
  induction d as [|[k0 task0] d IH]; [done|].
  rewrite scan_cons. simpl. destruct (decide (k0 = k)) as [->|Hne].
  - intros [= ->] ->. apply list_elem_of_here.
  - intros Hget Hdue. case_match; simpl; [apply list_elem_of_further|]; auto.
Qed.

Lemma scan_skips current_time runs d k :
  (forall task, (k, task) ∈ d -> is_due current_time task = false) ->
  invocations_of k (scan current_time runs d).2 = [].
Proof.
  unfold invocations_of. induction d as [|[k0 task0] d IH]; [done|].
  intros Hidle. rewrite scan_cons.
  assert (filter (fun inv => invoked_task inv = k) (scan current_time runs d).2 = [])
    as Hrest by (apply IH; intros; apply Hidle; by apply list_elem_of_further).
  destruct (is_due current_time task0) eqn:Hdue; simpl; [|exact Hrest].
  rewrite filter_cons. simpl. case_decide as Hk; [|exact Hrest].
  subst k0. rewrite (Hidle task0) in Hdue; [done | apply list_elem_of_here].
Qed.

Lemma scan_skips_absent current_time runs d k :
  k ∉ Registry.keys d -> invocations_of k (scan current_time runs d).2 = [].
Proof.
  intros Hfresh. apply scan_skips. intros task Hin. exfalso. apply Hfresh.
  apply list_elem_of_fmap. by exists (k, task).
Qed.

Lemma iteration_skips current_time runs self k task :
  wf self ->
  Registry.get k (tasks self) = Some task -> is_due current_time task = false ->
  Registry.get k (tasks (scheduler_loop_iteration current_time runs self).1) = Some task /\
  invocations_of k (scheduler_loop_iteration current_time runs self).2 = [].
Proof.
  intros Hwf Hget Hnot_due. unfold scheduler_loop_iteration.
  pose proof (get_scan current_time runs (tasks self) k) as Hscan.
  pose proof (scan_skips current_time runs (tasks self) k) as Hlog.
  destruct (scan current_time runs (tasks self)) as [tasks' log]. simpl in *.
  rewrite Hscan, Hget. simpl. rewrite Hnot_due. split; [done|].
  apply Hlog. intros task' Hin. apply elem_get in Hin; [|done]. by simplify_eq.
Qed.

Lemma scan_invokes_once current_time runs d k task :
  NoDup (Registry.keys d) ->
  Registry.get k d = Some task -> is_due current_time task = true ->
  invocations_of k (scan current_time runs d).2 = [Invoked ByLoop k (handler task)].
Proof.
  unfold Registry.keys.
  induction d as [|[k0 task0] d IH]; [done|].
  simpl Registry.get. rewrite fmap_cons, NoDup_cons, scan_cons. simpl.
  intros [Hk0 Hd]. destruct (decide (k0 = k)) as [->|Hne].
  - intros [= ->] ->. simpl. unfold invocations_of. rewrite filter_cons. simpl.
    rewrite decide_True by done. f_equal. by apply scan_skips_absent.
  - intros Hget Hdue. case_match; simpl; [|by apply IH].
    unfold invocations_of. rewrite filter_cons. simpl.
    rewrite decide_False by done. by apply IH.
Qed.

Lemma iteration_runs_due current_time runs self k task :
  Registry.get k (tasks self) = Some task -> is_due current_time task = true ->
  Registry.get k (tasks (scheduler_loop_iteration current_time runs self).1)
    = Some (_execute_task (runs k) task) /\
  Invoked ByLoop k (handler task) ∈ (scheduler_loop_iteration current_time runs self).2.
Proof.
  intros Hget Hdue. unfold scheduler_loop_iteration.
  pose proof (get_scan current_time runs (tasks self) k) as Hscan.
  pose proof (scan_invokes_due current_time runs (tasks self) k task Hget Hdue) as Hlog.
  destruct (scan current_time runs (tasks self)) as [tasks' log]. simpl in *.
  rewrite Hscan, Hget. simpl. by rewrite Hdue.
Qed.

End LoopFacts.

(** ** Histories *)

Section HistoryFacts.

Implicit Types (self : SchedulerService) (k : string) (call : Call).

Lemma invocations_of_app k (log1 log2 : list Invocation) :
  invocations_of k (log1 ++ log2) = invocations_of k log1 ++ invocations_of k log2.
Proof. apply filter_app. Qed.

Lemma perform_all_cons call history self :
  perform_all (call :: history) self =
  ((perform_all history (perform call self).1).1,
   (perform call self).2 ++ (perform_all history (perform call self).1).2).
Proof.
  simpl. destruct (perform call self) as [self' log]. simpl.
  by destruct (perform_all history self').
Qed.

Lemma perform_all_app history1 history2 self :
  perform_all (history1 ++ history2) self =
  ((perform_all history2 (perform_all history1 self).1).1,
   (perform_all history1 self).2 ++ (perform_all history2 (perform_all history1 self).1).2).
Proof.
  revert self. induction history1 as [|call history1 IH]; intros self.
  - simpl. by destruct (perform_all history2 self).
  - rewrite <- app_comm_cons, !perform_all_cons, IH. simpl. by rewrite app_assoc.
Qed.

Lemma perform_wf call self : wf self -> wf (perform call self).1.
Proof.
  unfold wf. intros Hwf.
  destruct call; simpl;
    unfold schedule_task, cancel_task, pause_task, resume_task, reschedule_task,
      force_run_task, scheduler_loop_iteration;
    repeat (case_match; simplify_eq/=); rewrite ?keys_update; try done.
  - rewrite keys_add. apply NoDup_app. split_and!; [done| |apply NoDup_singleton].
    intros k Hk ->%list_elem_of_singleton. by apply (get_None (tasks self) task_id).
  - match goal with H : scan _ _ _ = _ |- _ => apply (f_equal fst) in H; simpl in H; subst end.
    by rewrite keys_scan.
Qed.

Lemma perform_all_wf history self : wf self -> wf (perform_all history self).1.
Proof.
  revert self. induction history as [|call history IH]; intros self Hwf; [done|].
  rewrite perform_all_cons. simpl. by apply IH, perform_wf.
Qed.

Lemma init_wf : wf init.
Proof. apply NoDup_nil_2. Qed.

(** Loop iterations that come before [next_run] leave a task alone. *)
Lemma early_ticks_skip k task early self :
  wf self ->
  Registry.get k (tasks self) = Some task ->
  Forall (fun iteration => iteration.1 < next_run task) early ->
  Registry.get k (tasks (perform_all (ticks early) self).1) = Some task /\
  invocations_of k (perform_all (ticks early) self).2 = [].
Proof.
  intros Hwf Hget Hearly. revert self Hwf Hget.
  induction Hearly as [|[current_time runs] early Hbefore _ IH]; intros self Hwf Hget; [done|].
  unfold ticks. rewrite fmap_cons, perform_all_cons. fold (ticks early). simpl in *.
  destruct (iteration_skips current_time runs self k task Hwf Hget) as [Hget' Hlog].
  { unfold is_due. apply andb_false_iff. right. by apply Z.leb_gt. }
  rewrite invocations_of_app, Hlog. simpl.
  apply IH; [|done]. by apply (perform_wf (Tick current_time runs)).
Qed.

End HistoryFacts.

(** ** Tasks that are not [PENDING] stay as they are *)

Section Idle.

Implicit Types (self : SchedulerService) (k : string) (call : Call).

(** A task in state [st], other than [PENDING], keeps that state and is not
    invoked by any call except a forced run or a reschedule of it, a cancel
    of it (unless it is cancelled already) and a resume of it (if it is
    cancelled). *)
Lemma perform_idle k st call self :
  wf self ->
  status_of k self = Some st -> st <> PENDING ->
  is_force_run_of k call = false ->
  is_reschedule_of k call = false ->
  st = CANCELLED \/ is_cancel_of k call = false ->
  st <> CANCELLED \/ is_resume_of k call = false ->
  status_of k (perform call self).1 = Some st /\
  invocations_of k (perform call self).2 = [].
Proof.
  unfold status_of. intros Hwf Hst Hidle Hforce Hresched Hcancel Hresume.
  destruct (Registry.get k (tasks self)) as [task|] eqn:Hget; [|done].
  injection Hst as <-.
  destruct call; simpl in *.
  - (* schedule *)
    unfold schedule_task. case_match; simpl; [by rewrite Hget|].
    by rewrite get_add, Hget.
  - (* cancel *)
    unfold cancel_task. case_match; simpl; [|by rewrite Hget].
    rewrite get_update. destruct (decide (task_id = k)) as [->|Hne]; rewrite Hget; [|done].
    destruct Hcancel as [Hc|Hc]; [by rewrite Hc | by rewrite bool_decide_eq_true_2 in Hc].
  - (* pause *)
    unfold pause_task. case_match; simpl; [|by rewrite Hget].
    destruct (decide (status _ = PENDING)) as [Hpending|_]; simpl; [|by rewrite Hget].
    rewrite get_update. destruct (decide (task_id = k)) as [->|Hne]; rewrite Hget; [|done].
    congruence.
  - (* resume *)
    unfold resume_task. case_match; simpl; [|by rewrite Hget].
    destruct (decide (status _ = CANCELLED)) as [Hcancelled|_]; simpl; [|by rewrite Hget].
    assert (task_id <> k) as Hne.
    { intros ->. destruct Hresume as [Hr|Hr]; [|by rewrite bool_decide_eq_true_2 in Hr].
      congruence. }
    repeat case_match; simpl; rewrite get_update_ne, Hget by done; done.
  - (* reschedule *)
    unfold reschedule_task. case_match; simpl; [|by rewrite Hget].
    rewrite bool_decide_eq_false in Hresched. rewrite get_update_ne, Hget by done. done.
  - (* force_run *)
    unfold force_run_task. rewrite bool_decide_eq_false in Hforce.
    destruct (Registry.get task_id (tasks self)); simpl; [|by rewrite Hget].
    rewrite get_update_ne, Hget by done. split; [done|].
    unfold invocations_of. rewrite filter_cons. simpl. by rewrite decide_False.
  - (* loop iteration *)
    assert (is_due current_time task = false) as Hnot_due.
    { unfold is_due. by rewrite bool_decide_eq_false_2. }
    destruct (iteration_skips current_time runs self k task) as [Hget' Hlog]; try done.
    by rewrite Hget'.
Qed.

Lemma perform_all_idle k st history self :
  wf self ->
  status_of k self = Some st -> st <> PENDING ->
  Forall (fun call => is_force_run_of k call = false) history ->
  Forall (fun call => is_reschedule_of k call = false) history ->
  st = CANCELLED \/ Forall (fun call => is_cancel_of k call = false) history ->
  st <> CANCELLED \/ Forall (fun call => is_resume_of k call = false) history ->
  status_of k (perform_all history self).1 = Some st /\
  invocations_of k (perform_all history self).2 = [].
Proof.
  intros Hwf Hst Hidle Hforce. revert self Hwf Hst.
  induction Hforce as [|call history Hforce1 Hforce IH];
    intros self Hwf Hst Hresched Hcancel Hresume; [done|].
  apply Forall_cons in Hresched as [Hresched1 Hresched].
  assert (st = CANCELLED \/ is_cancel_of k call = false) as Hcancel1
    by (destruct Hcancel as [?|[? _]%Forall_cons]; auto).
  assert (st <> CANCELLED \/ is_resume_of k call = false) as Hresume1
    by (destruct Hresume as [?|[? _]%Forall_cons]; auto).
  destruct (perform_idle k st call self) as [Hst' Hlog]; try done.
  rewrite perform_all_cons. simpl. rewrite invocations_of_app, Hlog. simpl.
  apply IH; try done.
  - by apply perform_wf.
  - destruct Hcancel as [?|[_ ?]%Forall_cons]; auto.
  - destruct Hresume as [?|[_ ?]%Forall_cons]; auto.
Qed.

End Idle.

(** A history that avoids several kinds of call avoids each of them. *)
Ltac avoids Hhistory :=
  eapply Forall_impl; [exact Hhistory|];
  simpl; intros ?; rewrite !orb_false_iff; tauto.

(** ** Handler failures (C2) *)

(** C2, as worded, fails in its last part: a [FAILED] task comes back to
    the loop through [cancel()] followed by [resume()], with no
    [reschedule()] anywhere. *)
Lemma failed_task_revived_without_reschedule :
  status_of "job" failed_state = Some FAILED /\
  ~ claimed_failed_is_final "job" failed_state cancel_then_resume.
Proof.
  split; [reflexivity|].
  intros Hclaim.
  assert (Forall (fun call => is_reschedule_of "job" call = false) cancel_then_resume)
    as Hhistory by (repeat constructor).
  specialize (Hclaim Hhistory). vm_compute in Hclaim. discriminate Hclaim.
Qed.

(** C2, amended.  A handler that raises leaves its task [FAILED] with
    [last_error] set to the message; the executor returns normally, so every
    task that is due in a loop iteration is executed in it whatever the
    outcomes of the others; and a [FAILED] task stays [FAILED] and is not
    invoked again, by the loop or otherwise, as long as no caller applies
    [reschedule()], [cancel()] or [force_run()] to it. *)
Theorem handler_failure_is_contained :
  (forall run task message,
     outcome run = Raised (Exception message) ->
     status (_execute_task run task) = FAILED /\
     last_error (_execute_task run task) = Some message) /\
  (forall current_time runs self k task,
     Registry.get k (tasks self) = Some task ->
     is_due current_time task = true ->
     Registry.get k (tasks (scheduler_loop_iteration current_time runs self).1)
       = Some (_execute_task (runs k) task) /\
     Invoked ByLoop k (handler task)
       ∈ (scheduler_loop_iteration current_time runs self).2) /\
  (forall self k history,
     wf self ->
     status_of k self = Some FAILED ->
     Forall (fun call => is_reschedule_of k call || is_cancel_of k call
                         || is_force_run_of k call = false) history ->
     status_of k (perform_all history self).1 = Some FAILED /\
     invocations_of k (perform_all history self).2 = []).
Proof.
  split_and!.
  - intros run task message Hout. by rewrite (execute_raised run task message Hout).
  - intros. by apply iteration_runs_due.
  - intros self k history Hwf Hfailed Hhistory.
    apply perform_all_idle; [done | done | done | | | right | by left];
      avoids Hhistory.
Qed.

(** The theorem at work: two tasks are due, the first one fails, the second
    one still runs; three further iterations, a pause and a resume later, the
    first is still [FAILED] and was invoked only once. *)
Lemma handler_failure_is_contained_witness :
  let self :=
    (perform_all [Schedule "job" 1%nat T2024 (Some 60) None NORMAL T2024;
                  Schedule "probe" 2%nat T2024 (Some 300) None HIGH T2024] init).1 in
  let runs := fun k => if decide (k = "job"%string)
                       then failing_run (utc 738886 30)
                       else ok_run (utc 738886 31) PyNone in
  let self' := (scheduler_loop_iteration (utc 738886 30) runs self).1 in
  let later :=
    [Tick (utc 738886 60) runs; Pause "job"; Resume "job" None (utc 738886 70);
     Tick (utc 738886 90) runs; Tick (utc 738886 120) runs] in
  (status_of "job" self' = Some FAILED /\
   Invoked ByLoop "probe" 2%nat ∈ (scheduler_loop_iteration (utc 738886 30) runs self).2) /\
  status_of "job" (perform_all later self').1 = Some FAILED /\
  invocations_of "job" (perform_all later self').2 = [].
Proof.
  intros self runs self' later.
  destruct handler_failure_is_contained as (Hfail & Hothers & Hfinal).
  split.
  - split.
    + destruct (Hothers (utc 738886 30) runs self "job" _ eq_refl eq_refl) as [Hjob _].
      unfold status_of, self'. rewrite Hjob.
      exact (f_equal Some (proj1 (Hfail (runs "job") _ "database is locked"%string eq_refl))).
    + apply (Hothers (utc 738886 30) runs self "probe" _ eq_refl eq_refl).
  - apply (Hfinal self' "job" later).
    + apply (perform_wf (Tick (utc 738886 30) runs) self), (perform_all_wf _ init), init_wf.
    + reflexivity.
    + repeat constructor.
Defined.

(** ** [cancel_task] (C3) *)

(** C3, as worded, fails: a [COMPLETED] task is transitioned to
    [CANCELLED]. *)
Lemma cancel_transitions_completed_task :
  status_of "job" completed_state = Some COMPLETED /\
  ~ claimed_cancel "job" completed_state.
Proof.
  split; [reflexivity|]. unfold claimed_cancel. vm_compute. discriminate.
Qed.

(** C3, amended.  [cancel(id)] returns false, and changes nothing, if [id]
    is unknown; otherwise it returns true and sets the task's status to
    [CANCELLED] whatever the prior status, terminal states included; the
    task's other fields and the other tasks are untouched, and [id] leaves
    [task_handlers]. *)
Theorem cancel_task_spec (task_id : string) (self : SchedulerService) :
  match Registry.get task_id (tasks self) with
  | None => cancel_task task_id self = (self, false)
  | Some task =>
      (cancel_task task_id self).2 = true /\
      Registry.get task_id (tasks (cancel_task task_id self).1)
        = Some (set_status CANCELLED task) /\
      status_of task_id (cancel_task task_id self).1 = Some CANCELLED /\
      task_handlers (cancel_task task_id self).1 !! task_id = None /\
      forall k, k <> task_id ->
        Registry.get k (tasks (cancel_task task_id self).1) = Registry.get k (tasks self) /\
        task_handlers (cancel_task task_id self).1 !! k = task_handlers self !! k
  end.
Proof.
  unfold cancel_task, status_of.
  destruct (Registry.get task_id (tasks self)) as [task|] eqn:Hget; [|done]. simpl.
  rewrite get_update_eq, Hget, lookup_delete_eq. split_and!; try done.
  intros k Hne. by rewrite get_update_ne, lookup_delete_ne.
Qed.

(** The theorem at work on a completed task and a bystander. *)
Lemma cancel_task_spec_witness :
  let self :=
    (perform_all [Schedule "probe" 2%nat T2024 (Some 300) None HIGH T2024] completed_state).1 in
  status_of "job" (cancel_task "job" self).1 = Some CANCELLED /\
  Registry.get "probe" (tasks (cancel_task "job" self).1) = Registry.get "probe" (tasks self).
Proof.
  intros self.
  pose proof (cancel_task_spec "job" self) as (_ & _ & Hstatus & _ & Hothers).
  split; [exact Hstatus|]. apply (Hothers "probe"). discriminate.
Defined.

(** ** [schedule_task] (C4) *)

(** C4.  [schedule] returns false when the id already exists and then leaves
    the scheduler, hence the existing record, exactly as it was; for a fresh
    id it returns true and creates a record with [status = PENDING],
    [next_run = start_time] and [run_count = 0], leaving the other records
    alone. *)
Theorem schedule_task_spec (task_id : string) (task_handler : Callable)
    (start_time : datetime) (interval max : option Z) (prio : TaskPriority)
    (now : datetime) (self : SchedulerService) :
  let result := schedule_task task_id task_handler start_time interval max prio now self in
  match Registry.get task_id (tasks self) with
  | Some existing =>
      result = (self, false) /\
      Registry.get task_id (tasks result.1) = Some existing
  | None =>
      result.2 = true /\
      (exists task,
         Registry.get task_id (tasks result.1) = Some task /\
         status task = PENDING /\
         next_run task = start_time /\
         run_count task = 0 /\
         id task = task_id /\
         handler task = task_handler /\
         interval_seconds task = interval /\
         max_runs task = max /\
         priority task = prio) /\
      task_handlers result.1 !! task_id = Some task_handler /\
      forall k, k <> task_id ->
        Registry.get k (tasks result.1) = Registry.get k (tasks self)
  end.
Proof.
  unfold schedule_task.
  destruct (Registry.get task_id (tasks self)) as [existing|] eqn:Hget; simpl; [done|].
  split_and!; [done | | by rewrite lookup_insert_eq |].
  - eexists. rewrite get_add, Hget, decide_True by done. by split_and!.
  - intros k Hne. rewrite get_add. destruct (Registry.get k (tasks self)); [done|].
    by rewrite decide_False.
Qed.

(** The theorem at work: the second [schedule] of an id is rejected and
    changes nothing, although it asks for a different handler and time. *)
Lemma schedule_task_spec_witness :
  schedule_task "job" 9%nat (utc 738886 500) None (Some 3) URGENT (utc 738886 7) pending_state
  = (pending_state, false).
Proof.
  exact (proj1 (schedule_task_spec "job" 9%nat (utc 738886 500) None (Some 3) URGENT
                  (utc 738886 7) pending_state)).
Defined.

(** ** [pause_task] (C5) *)

(** C5.  [pause] returns true exactly when the task exists and is
    [PENDING], and then the task becomes [CANCELLED]; in every other case --
    unknown id, or a task that is [RUNNING], [COMPLETED], [FAILED] or
    [CANCELLED] -- it returns false and changes nothing. *)
Theorem pause_task_spec (task_id : string) (self : SchedulerService) :
  let result := pause_task task_id self in
  (result.2 = true <->
   exists task, Registry.get task_id (tasks self) = Some task /\ status task = PENDING) /\
  (forall task, Registry.get task_id (tasks self) = Some task -> status task = PENDING ->
     result.2 = true /\
     Registry.get task_id (tasks result.1) = Some (set_status CANCELLED task) /\
     status_of task_id result.1 = Some CANCELLED /\
     task_handlers result.1 = task_handlers self /\
     forall k, k <> task_id -> Registry.get k (tasks result.1) = Registry.get k (tasks self)) /\
  (Registry.get task_id (tasks self) = None -> result = (self, false)) /\
  (forall task, Registry.get task_id (tasks self) = Some task ->
     status task = RUNNING \/ status task = COMPLETED \/
     status task = FAILED \/ status task = CANCELLED ->
     result = (self, false)) /\
  (result.2 = false -> result.1 = self).
Proof.
  unfold pause_task, status_of.
  destruct (Registry.get task_id (tasks self)) as [task|] eqn:Hget; simpl.
  - destruct (decide (status task = PENDING)) as [Hpending|Hother]; simpl.
    + split_and!; try done.
      * split; [by exists task | done].
      * intros ? [= <-] _. rewrite get_update_eq, Hget.
        split_and!; try done. intros k Hne. by rewrite get_update_ne.
      * intros ? [= <-]. rewrite Hpending. by intros [?|[?|[?|?]]].
    + split_and!; try done.
      * split; [done | by intros (? & [= <-] & ?)].
      * by intros ? [= <-] ?.
  - split_and!; try done. split; [done | by intros (? & ? & _)].
Qed.

(** The theorem at work: pausing a pending task succeeds, pausing it again
    does not. *)
Lemma pause_task_spec_witness :
  (pause_task "job" pending_state).2 = true /\
  status_of "job" (pause_task "job" pending_state).1 = Some CANCELLED /\
  pause_task "job" (pause_task "job" pending_state).1
  = ((pause_task "job" pending_state).1, false).
Proof.
  pose proof (pause_task_spec "job" pending_state) as (_ & Hpending & _).
  destruct (Hpending _ eq_refl eq_refl) as (Hok & _ & Hstatus & _).
  split; [exact Hok|]. split; [exact Hstatus|].
  pose proof (pause_task_spec "job" (pause_task "job" pending_state).1)
    as (_ & _ & _ & Hother & _).
  apply (Hother _ eq_refl). right. right. right. reflexivity.
Defined.

(** ** [resume_task] (C6) *)

(** C6, as worded, fails: resuming with a start time in the past succeeds
    and leaves [next_run] before the time of the call. *)
Lemma resume_accepts_past_start_time :
  status_of "job" cancelled_state = Some CANCELLED /\
  ~ claimed_resume "job" (Some (T2024 - 1)) T2024 cancelled_state.
Proof.
  split; [reflexivity|]. unfold claimed_resume. vm_compute.
  intros (_ & task' & [= <-] & _ & _ & Hle). by apply Hle.
Qed.

(** C6, amended.  [resume] returns true exactly when the task exists and is
    [CANCELLED]; the task then becomes [PENDING] with [next_run] equal to
    [new_start_time], or to now + 5 minutes when that is omitted, and
    [next_run >= now] holds when [new_start_time] is omitted or is itself not
    before now; in every other case [resume] returns false and changes
    nothing.  (When [new_start_time] is omitted, the clock is taken to be at
    least five minutes before the end of the [datetime] range.) *)
Theorem resume_task_spec (task_id : string) (new_start_time : option datetime)
    (now : datetime) (self : SchedulerService) :
  (new_start_time = None -> representable (now + timedelta_minutes 5) = true) ->
  let result := resume_task task_id new_start_time now self in
  let start := default (now + timedelta_minutes 5) new_start_time in
  (result.2 = true <->
   exists task, Registry.get task_id (tasks self) = Some task /\ status task = CANCELLED) /\
  (forall task, Registry.get task_id (tasks self) = Some task -> status task = CANCELLED ->
     Registry.get task_id (tasks result.1)
       = Some (set_next_run start (set_status PENDING task)) /\
     task_handlers result.1 = task_handlers self /\
     (forall k, k <> task_id -> Registry.get k (tasks result.1) = Registry.get k (tasks self)) /\
     (match new_start_time with Some t => now <= t | None => True end -> now <= start)) /\
  (result.2 = false -> result = (self, false)).
Proof.
  intros Hclock. unfold resume_task.
  assert (match new_start_time with
          | Some t => Some t
          | None => datetime_add now (timedelta_minutes 5)
          end = Some (default (now + timedelta_minutes 5) new_start_time)) as ->.
  { destruct new_start_time; [done|]. unfold datetime_add. by rewrite Hclock. }
  destruct (Registry.get task_id (tasks self)) as [task|] eqn:Hget; simpl.
  - destruct (decide (status task = CANCELLED)) as [Hcancelled|Hother]; simpl.
    + split_and!; try done.
      * split; [by exists task | done].
      * intros ? [= <-] _. rewrite get_update_eq, Hget. split_and!; try done.
        -- intros k Hne. by rewrite get_update_ne.
        -- destruct new_start_time; simpl; [done|]. intros _.
           unfold timedelta_minutes, US_PER_SECOND. lia.
    + split_and!; try done.
      * split; [done | by intros (? & [= <-] & ?)].
      * by intros ? [= <-] ?.
  - split_and!; try done. split; [done | by intros (? & ? & _)].
Qed.

(** The theorem at work: a cancelled task resumed without a start time. *)
Lemma resume_task_spec_witness :
  (resume_task "job" None (utc 738886 60) cancelled_state).2 = true /\
  (next_run <$> Registry.get "job"
     (tasks (resume_task "job" None (utc 738886 60) cancelled_state).1))
  = Some (utc 738886 360).
Proof.
  pose proof (resume_task_spec "job" None (utc 738886 60) cancelled_state
                (fun _ => eq_refl)) as (Hok & Hresumed & _).
  split.
  - apply Hok. by eexists.
  - destruct (Hresumed _ eq_refl eq_refl) as (-> & _). reflexivity.
Defined.

(** ** The cleanup scenario (C7) *)

(** C7, as worded, fails: the loop finds the task thirty seconds after
    [T0], the handler takes a second, and [next_run] is a day after that, not
    a day after [T0]. *)
Lemma cleanup_next_run_is_not_T0_plus_a_day :
  let runs := fun _ : string => ok_run (utc 738886 30) deleted_5 in
  let final :=
    (perform_all (cleanup_scenario 1%nat T2024 (utc 738885 82800) [] (utc 738886 30) runs)
                 init).1 in
  exists task,
    Registry.get "cleanup" (tasks final) = Some task /\
    next_run task = utc 738887 31 /\
    ~ claimed_cleanup T2024 task.
Proof.
  eexists. split; [reflexivity|]. split; [reflexivity|].
  unfold claimed_cleanup. vm_compute. intros (_ & _ & Hnext & _). discriminate Hnext.
Qed.

(** C7, amended.  After [schedule("cleanup", H, T0, interval=86400)] on a
    scheduler that does not know the id, and loop iterations that all come
    before [T0], the first iteration at or after [T0] invokes [H], this
    being its only invocation; if it returns [{"deleted": 5}], the task has
    [run_count = 1], [status = PENDING], [last_result = {"deleted": 5}] and
    [next_run] equal to the completion time plus 86400 seconds, which is at
    least [T0 + 86400] seconds as the handler completes no earlier than the
    iteration started. *)
Theorem cleanup_scenario_spec (self : SchedulerService) (H : Callable)
    (T0 now : datetime) (early : list (datetime * (string -> Run)))
    (current_time : datetime) (runs : string -> Run) :
  wf self ->
  Registry.get "cleanup" (tasks self) = None ->
  Forall (fun iteration => iteration.1 < T0) early ->
  T0 <= current_time ->
  outcome (runs "cleanup"%string) = Returned deleted_5 ->
  representable (finished (runs "cleanup"%string) + 86400 * US_PER_SECOND) = true ->
  let result := perform_all (cleanup_scenario H T0 now early current_time runs) self in
  invocations_of "cleanup" result.2 = [Invoked ByLoop "cleanup" H] /\
  exists task,
    Registry.get "cleanup" (tasks result.1) = Some task /\
    run_count task = 1 /\
    status task = PENDING /\
    next_run task = finished (runs "cleanup"%string) + 86400 * US_PER_SECOND /\
    last_result task = deleted_5 /\
    (current_time <= finished (runs "cleanup"%string) ->
     T0 + 86400 * US_PER_SECOND <= next_run task).
Proof.
  intros Hwf Hfresh Hearly Hdue Hout Hrepr result. subst result.
  unfold cleanup_scenario. rewrite perform_all_cons, perform_all_app.
  set (scheduled := (perform _ self).1).
  set (task0 := mkTask "cleanup" H T0 (Some 86400) None 0 NORMAL PENDING now
                       None PyNone None).
  assert ((perform (Schedule "cleanup" H T0 (Some 86400) None NORMAL now) self).2 = [])
    as -> by done.
  assert (wf scheduled) as Hwf1 by (by apply perform_wf).
  assert (Registry.get "cleanup" (tasks scheduled) = Some task0) as Hget.
  { subst scheduled. simpl. unfold schedule_task. rewrite Hfresh. simpl.
    by rewrite get_add, Hfresh. }
  destruct (early_ticks_skip "cleanup" task0 early scheduled Hwf1 Hget Hearly)
    as [Hget1 Hlog1].
  set (waited := (perform_all (ticks early) scheduled).1) in *.
  assert (wf waited) as Hwf2 by (by apply perform_all_wf).
  assert (is_due current_time task0 = true) as Hdue0.
  { unfold is_due. simpl. by apply Z.leb_le. }
  simpl perform_all. unfold scheduler_loop_iteration.
  pose proof (get_scan current_time runs (tasks waited) "cleanup") as Hscan.
  pose proof (scan_invokes_once current_time runs (tasks waited) "cleanup" task0
                Hwf2 Hget1 Hdue0) as Hlog2.
  destruct (scan current_time runs (tasks waited)) as [tasks' log]. simpl in *.
  rewrite !invocations_of_app, Hlog1, Hlog2. split; [done|].
  rewrite Hscan, Hget1. simpl. rewrite Hdue0.
  eexists. split; [reflexivity|].
  unfold _execute_task, execute_body. rewrite Hout. simpl.
  rewrite after_seconds_representable by (done || by eexists). simpl.
  split_and!; try done. lia.
Qed.

(** The theorem at work: two earlier iterations, then the one of 00:00:30. *)
Lemma cleanup_scenario_spec_witness :
  let runs := fun _ : string => ok_run (utc 738886 30) deleted_5 in
  let early := [(utc 738885 86340, runs); (utc 738885 86370, runs)] in
  let result :=
    perform_all (cleanup_scenario 1%nat T2024 (utc 738885 82800) early
                   (utc 738886 30) runs) pending_state in
  invocations_of "cleanup" result.2 = [Invoked ByLoop "cleanup" 1%nat] /\
  exists task,
    Registry.get "cleanup" (tasks result.1) = Some task /\
    run_count task = 1 /\
    status task = PENDING /\
    next_run task = utc 738887 31 /\
    last_result task = deleted_5 /\
    (utc 738886 30 <= utc 738886 31 -> utc 738887 0 <= next_run task).
Proof.
  intros runs early.
  apply (cleanup_scenario_spec pending_state 1%nat T2024 (utc 738885 82800) early
           (utc 738886 30) runs).
  - apply (perform_all_wf _ init), init_wf.
  - reflexivity.
  - repeat constructor.
  - discriminate.
  - reflexivity.
  - reflexivity.
Defined.

(** ** Cancelled tasks (C8) *)

(** C8, as worded, fails: after [cancel()], a forced run invokes the
    handler, which the record still holds, and leaves the recurring task
    [PENDING]; the next loop iteration invokes it again, although neither
    [resume()] nor [reschedule()] was called. *)
Lemma cancelled_task_revived_by_force_run :
  (perform_all force_run_then_tick cancelled_state).2
  = [Invoked ByForceRun "job" 1%nat; Invoked ByLoop "job" 1%nat] /\
  ~ claimed_cancel_is_final "job" pending_state force_run_then_tick.
Proof.
  split; [reflexivity|].
  intros [_ Hclaim].
  assert (Forall (fun call => is_resume_of "job" call || is_reschedule_of "job" call = false)
                 force_run_then_tick) as Hhistory by (repeat constructor).
  specialize (Hclaim Hhistory). vm_compute in Hclaim. discriminate Hclaim.
Qed.

(** C8, amended.  Once [cancel(id)] has succeeded on a [PENDING] task, the
    status is [CANCELLED] at once, and the task stays [CANCELLED] and its
    handler is invoked neither by the loop nor otherwise as long as no caller
    applies [resume()], [reschedule()] or [force_run()] to it; cancellation
    removes the id from [task_handlers], while the record keeps its handler
    reference. *)
Theorem cancel_is_final_until_revived (self : SchedulerService) (task_id : string)
    (task : Task) (history : list Call) :
  wf self ->
  Registry.get task_id (tasks self) = Some task ->
  status task = PENDING ->
  Forall (fun call => is_resume_of task_id call || is_reschedule_of task_id call
                      || is_force_run_of task_id call = false) history ->
  let cancelled := cancel_task task_id self in
  cancelled.2 = true /\
  status_of task_id cancelled.1 = Some CANCELLED /\
  task_handlers cancelled.1 !! task_id = None /\
  (handler <$> Registry.get task_id (tasks cancelled.1)) = Some (handler task) /\
  status_of task_id (perform_all history cancelled.1).1 = Some CANCELLED /\
  invocations_of task_id (perform_all history cancelled.1).2 = [].
Proof.
  intros Hwf Hget _ Hhistory cancelled.
  assert (cancelled = (mkScheduler (Registry.update task_id (set_status CANCELLED) (tasks self))
                                   (delete task_id (task_handlers self)), true)) as ->
    by (subst cancelled; unfold cancel_task; by rewrite Hget).
  simpl. set (self' := mkScheduler _ _).
  assert (wf self') as Hwf' by (unfold wf; simpl; by rewrite keys_update).
  assert (status_of task_id self' = Some CANCELLED) as Hstatus
    by (unfold status_of; simpl; by rewrite get_update_eq, Hget).
  assert (status_of task_id (perform_all history self').1 = Some CANCELLED /\
          invocations_of task_id (perform_all history self').2 = []) as [Hfinal Hlog].
  { apply perform_all_idle; [done | done | done | | | by left | right];
      avoids Hhistory. }
  split_and!; try done.
  - apply lookup_delete_eq.
  - simpl. by rewrite get_update_eq, Hget.
Qed.

(** The theorem at work: iterations, a pause and a second cancel after the
    cancellation never reach the handler. *)
Lemma cancel_is_final_until_revived_witness :
  let runs := fun _ : string => ok_run (utc 738886 400) PyNone in
  let history := [Tick (utc 738886 30) runs; Pause "job"; Cancel "job";
                  Tick (utc 738886 400) runs] in
  status_of "job" (perform_all history cancelled_state).1 = Some CANCELLED /\
  invocations_of "job" (perform_all history cancelled_state).2 = [].
Proof.
  intros runs history.
  assert (wf pending_state) as Hwf by apply (perform_all_wf _ init), init_wf.
  assert (Forall (fun call => is_resume_of "job" call || is_reschedule_of "job" call
                              || is_force_run_of "job" call = false) history)
    as Hhistory by (repeat constructor).
  destruct (cancel_is_final_until_revived pending_state "job" _ history Hwf
              eq_refl eq_refl Hhistory) as (_ & _ & _ & _ & Hstatus & Hlog).
  split; [exact Hstatus | exact Hlog].
Defined.

(** ** [run_count] (C9) *)

Section RunCount.

Implicit Types (self : SchedulerService) (k : string) (call : Call).

Lemma execute_run_count_le run task : run_count task <= run_count (_execute_task run task).
Proof. rewrite execute_run_count. destruct (outcome run); lia. Qed.

Lemma perform_run_count call self k task :
  Registry.get k (tasks self) = Some task ->
  exists task', Registry.get k (tasks (perform call self).1) = Some task' /\
                run_count task <= run_count task'.
Proof.
  intros Hget.
  assert (forall k' f, (forall t, run_count t <= run_count (f t)) ->
            exists task', Registry.get k (Registry.update k' f (tasks self)) = Some task' /\
                          run_count task <= run_count task') as Hupdate.
  { intros k' f Hf. rewrite get_update.
    destruct (decide (k' = k)) as [->|]; rewrite Hget; simpl; eauto with lia. }
  destruct call; simpl.
  - unfold schedule_task. case_match; simpl; [eauto with lia|].
    rewrite get_add, Hget. eauto with lia.
  - unfold cancel_task. case_match; simpl; [|eauto with lia].
    apply Hupdate. by intros [].
  - unfold pause_task. repeat case_match; simpl; try eauto with lia.
    apply Hupdate. by intros [].
  - unfold resume_task. repeat case_match; simpl; try eauto with lia;
      apply Hupdate; by intros [].
  - unfold reschedule_task. case_match; simpl; [|eauto with lia].
    apply Hupdate. intros []. by case_match.
  - unfold force_run_task. destruct (Registry.get task_id (tasks self)); simpl;
      [|eauto with lia].
    apply Hupdate. intros. apply execute_run_count_le.
  - unfold scheduler_loop_iteration.
    pose proof (get_scan current_time runs (tasks self) k) as Hscan.
    destruct (scan current_time runs (tasks self)) as [tasks' log]. simpl in *.
    rewrite Hscan, Hget. simpl. eexists. split; [done|].
    case_match; [apply execute_run_count_le | lia].
Qed.

End RunCount.

(** C9.  Whatever calls are made -- schedule, cancel, pause, resume,
    reschedule, forced runs and loop iterations, in any number and order --
    every task record is still there afterwards and its [run_count] is at
    least what it was. *)
Theorem run_count_never_decreases (history : list Call) (self : SchedulerService)
    (task_id : string) (task : Task) :
  Registry.get task_id (tasks self) = Some task ->
  exists task',
    Registry.get task_id (tasks (perform_all history self).1) = Some task' /\
    run_count task <= run_count task'.
Proof.
  revert self task. induction history as [|call history IH]; intros self task Hget.
  - exists task. split; [done | lia].
  - rewrite perform_all_cons. simpl.
    destruct (perform_run_count call self task_id task Hget) as (task1 & Hget1 & Hle1).
    destruct (IH _ task1 Hget1) as (task' & Hget' & Hle').
    exists task'. split; [done | lia].
Qed.

(** The theorem at work on a history that uses every call. *)
Lemma run_count_never_decreases_witness :
  let runs := fun _ : string => ok_run (utc 738886 30) PyNone in
  let history :=
    [Tick (utc 738886 30) runs; ForceRun "job" (failing_run (utc 738886 40));
     Cancel "job"; Resume "job" None (utc 738886 50); Pause "job";
     Reschedule "job" (utc 738886 60) (Some 10);
     Schedule "job" 3%nat T2024 None None LOW (utc 738886 61);
     Tick (utc 738886 90) runs] in
  exists task',
    Registry.get "job" (tasks (perform_all history pending_state).1) = Some task' /\
    0 <= run_count task'.
Proof.
  intros runs history.
  exact (run_count_never_decreases history pending_state "job" _ eq_refl).
Defined.

(** ** [force_run_task] (C10) *)

(** C10.  [force_run] returns false exactly when the id is unknown, and then
    does nothing; for an existing task, whatever its status and [next_run],
    it returns true after running the executor on it at once, the task's
    handler being invoked exactly once. *)
Theorem force_run_task_spec (task_id : string) (run : Run) (self : SchedulerService) :
  let result := force_run_task task_id run self in
  (result.1.2 = false <-> Registry.get task_id (tasks self) = None) /\
  (Registry.get task_id (tasks self) = None -> result = (self, false, [])) /\
  (forall task, Registry.get task_id (tasks self) = Some task ->
     result.1.2 = true /\
     result.2 = [Invoked ByForceRun task_id (handler task)] /\
     Registry.get task_id (tasks result.1.1) = Some (_execute_task run task) /\
     last_run (_execute_task run task) = Some (started run) /\
     task_handlers result.1.1 = task_handlers self /\
     forall k, k <> task_id ->
       Registry.get k (tasks result.1.1) = Registry.get k (tasks self)).
Proof.
  unfold force_run_task.
  destruct (Registry.get task_id (tasks self)) as [task|] eqn:Hget; simpl.
  - split_and!; [done | done |].
    intros ? [= <-]. rewrite get_update_eq, Hget. split_and!; try done.
    + unfold _execute_task, execute_body. by repeat (case_match; simplify_eq/=).
    + intros k Hne. by rewrite get_update_ne.
  - by split_and!.
Qed.

(** The theorem at work: a forced run of a cancelled task whose [next_run]
    lies in the future. *)
Lemma force_run_task_spec_witness :
  let run := ok_run (utc 738885 100) deleted_5 in
  status_of "job" cancelled_state = Some CANCELLED /\
  (force_run_task "job" run cancelled_state).1.2 = true /\
  (force_run_task "job" run cancelled_state).2 = [Invoked ByForceRun "job" 1%nat] /\
  (last_result <$> Registry.get "job" (tasks (force_run_task "job" run cancelled_state).1.1))
  = Some deleted_5.
Proof.
  intros run. split; [reflexivity|].
  pose proof (force_run_task_spec "job" run cancelled_state) as (_ & _ & Hrun).
  destruct (Hrun _ eq_refl) as (Hok & Hlog & Hget & _).
  split; [exact Hok|]. split; [exact Hlog|]. rewrite Hget. reflexivity.
Defined.

(** * Further properties of the service *)

(** ** More facts about the registry *)

Section MoreRegistryFacts.

Implicit Types (d : Registry.t) (k : string) (f g : Task -> Task).

Lemma update_update d k f g :
  Registry.update k f (Registry.update k g d) = Registry.update k (fun task => f (g task)) d.
Proof.
  induction d as [|[k0 task] d IH]; simpl; [done|].
  destruct (decide (k0 = k)) as [->|Hne]; simpl.
  - by rewrite decide_True.
  - rewrite decide_False by done. by f_equal.
Qed.

Lemma update_fixed d k f task :
  Registry.get k d = Some task -> f task = task -> Registry.update k f d = d.
Proof.
  induction d as [|[k0 task0] d IH]; simpl; [done|].
  destruct (decide (k0 = k)) as [->|Hne].
  - intros [= ->] ->. done.
  - intros Hget Hf. f_equal. by apply IH.
Qed.

Lemma update_absent d k f : Registry.get k d = None -> Registry.update k f d = d.
Proof.
  induction d as [|[k0 task0] d IH]; simpl; [done|].
  destruct (decide (k0 = k)) as [->|Hne]; [done|].
  intros Hget. f_equal. by apply IH.
Qed.

Lemma keys_prefix_perform call self :
  Registry.keys (tasks self) `prefix_of` Registry.keys (tasks (perform call self).1).
Proof.
  destruct call; simpl;
    unfold schedule_task, cancel_task, pause_task, resume_task, reschedule_task,
      force_run_task, scheduler_loop_iteration;
    repeat (case_match; simplify_eq/=); rewrite ?keys_update; try done.
  - rewrite keys_add. by apply prefix_app_r.
  - match goal with H : scan _ _ _ = _ |- _ => apply (f_equal fst) in H; simpl in H; subst end.
    by rewrite keys_scan.
Qed.

Lemma scan_idle current_time runs d :
  Forall (fun item => is_due current_time item.2 = false) d ->
  scan current_time runs d = (d, []).
Proof.
  intros Hidle. induction Hidle as [|[k task] d Hdue _ IH]; [done|].
  rewrite scan_cons. simpl in Hdue. by rewrite Hdue, IH.
Qed.

End MoreRegistryFacts.

(** ** [reschedule_task] *)

(** X1.  [reschedule] returns false and changes nothing for an unknown id.
    For a known id it returns true, stores the new [next_run] and forces
    the status to [PENDING] whatever it was; the interval is replaced only
    by a [new_interval] that is given and non-zero; the run count, the
    results and the identity of the record are kept, [task_handlers] is not
    touched, and no other task changes. *)
Theorem reschedule_task_spec (task_id : string) (new_start_time : datetime)
    (new_interval : option Z) (self : SchedulerService) :
  let result := reschedule_task task_id new_start_time new_interval self in
  match Registry.get task_id (tasks self) with
  | None => result = (self, false)
  | Some task =>
      result.2 = true /\
      (exists task',
         Registry.get task_id (tasks result.1) = Some task' /\
         status task' = PENDING /\
         next_run task' = new_start_time /\
         interval_seconds task' =
           match new_interval with
           | Some seconds => if decide (seconds = 0) then interval_seconds task
                             else Some seconds
           | None => interval_seconds task
           end /\
         run_count task' = run_count task /\
         last_run task' = last_run task /\
         last_result task' = last_result task /\
         last_error task' = last_error task /\
         same_identity task task') /\
      task_handlers result.1 = task_handlers self /\
      forall k, k <> task_id ->
        Registry.get k (tasks result.1) = Registry.get k (tasks self)
  end.
Proof.
  unfold reschedule_task.
  destruct (Registry.get task_id (tasks self)) as [task|] eqn:Hget; simpl; [|done].
  split_and!; try done.
  - rewrite get_update_eq, Hget. simpl. eexists. split; [done|].
    destruct new_interval as [seconds|]; simpl.
    + destruct (decide (seconds = 0)) as [->|Hne]; simpl.
      * by split_and!.
      * rewrite (proj2 (Z.eqb_neq seconds 0) Hne). simpl. by split_and!.
    + by split_and!.
  - intros k Hne. by rewrite get_update_ne.
Qed.

(** ** [pause_task] and [resume_task] together *)

(** X2.  Pausing a [PENDING] task and resuming it at its old [next_run]
    gives back the scheduler as it was.  Cancelling it instead and resuming
    it in the same way gives back the task records, but the id is then
    missing from [task_handlers]. *)
Theorem pause_resume_round_trip (task_id : string) (task : Task) (now : datetime)
    (self : SchedulerService) :
  Registry.get task_id (tasks self) = Some task ->
  status task = PENDING ->
  resume_task task_id (Some (next_run task)) now (pause_task task_id self).1
  = (self, true) /\
  resume_task task_id (Some (next_run task)) now (cancel_task task_id self).1
  = (mkScheduler (tasks self) (delete task_id (task_handlers self)), true).
Proof.
  intros Hget Hpending.
  assert (Registry.update task_id
            (fun t => set_next_run (next_run task) (set_status PENDING (set_status CANCELLED t)))
            (tasks self) = tasks self) as Hback.
  { apply (update_fixed _ _ _ task Hget). destruct task; simpl in *. by subst. }
  unfold pause_task, cancel_task, resume_task. rewrite Hget.
  rewrite decide_True by done. simpl.
  rewrite !get_update_eq, Hget. simpl.
  unfold with_tasks. simpl. rewrite !update_update, Hback.
  by destruct self.
Qed.

(** The theorem at work on the task of [pending_state]. *)
Lemma pause_resume_round_trip_witness :
  resume_task "job" (Some T2024) (utc 738886 5) (pause_task "job" pending_state).1
  = (pending_state, true) /\
  task_handlers (resume_task "job" (Some T2024) (utc 738886 5)
                   (cancel_task "job" pending_state).1).1 !! "job" = None.
Proof.
  destruct (pause_resume_round_trip "job" _ (utc 738886 5) pending_state eq_refl eq_refl)
    as [Hpause Hcancel].
  split; [exact Hpause|].
  etrans; [exact (f_equal (fun r => task_handlers r.1 !! "job"%string) Hcancel) | reflexivity].
Defined.

(** ** The queries *)

(** X3.  [get_task_status] answers [None] exactly for unknown ids, and
    [get_all_tasks] is the list of the answers of [get_task_status] to the
    ids of the registry, taken in the order in which they were scheduled. *)
Theorem queries_agree (self : SchedulerService) :
  wf self ->
  (forall task_id, get_task_status task_id self = None <->
                   Registry.get task_id (tasks self) = None) /\
  Some <$> get_all_tasks self
  = (fun task_id => get_task_status task_id self) <$> Registry.keys (tasks self).
Proof.
  intros Hwf. split.
  - intros task_id. unfold get_task_status. by destruct (Registry.get task_id (tasks self)).
  - unfold get_all_tasks, get_task_status, wf, Registry.keys in *.
    induction (tasks self) as [|[k task] d IH]; [done|].
    rewrite fmap_cons in Hwf. apply NoDup_cons in Hwf as [Hk Hd].
    cbn [get_all_tasks_from]. rewrite !fmap_cons. cbn [fst Registry.get].
    rewrite decide_True by done. f_equal. rewrite IH by done.
    apply list_fmap_ext. intros i k' Hin.
    rewrite decide_False; [done|]. intros ->. apply Hk.
    by apply list_elem_of_lookup_2 in Hin.
Qed.

(** The theorem at work on a registry of two tasks. *)
Lemma queries_agree_witness :
  let self :=
    (perform_all [Schedule "probe" 2%nat T2024 (Some 300) None HIGH T2024] completed_state).1 in
  Some <$> get_all_tasks self
  = [get_task_status "job" self; get_task_status "probe" self].
Proof.
  intros self.
  assert (wf self) as Hwf by apply (perform_all_wf _ completed_state), (perform_all_wf _ init), init_wf.
  exact (proj2 (queries_agree self Hwf)).
Defined.

(** ** What every call preserves *)

Section Related.

Variable R : Task -> Task -> Prop.
Hypothesis R_refl : forall task, R task task.
Hypothesis R_trans : forall a b c, R a b -> R b c -> R a c.
Hypothesis R_status : forall v task, R task (set_status v task).
Hypothesis R_next_run : forall v task, R task (set_next_run v task).
Hypothesis R_interval : forall v task, R task (set_interval_seconds v task).
Hypothesis R_execute : forall run task, R task (_execute_task run task).

Lemma perform_related call self k task :
  Registry.get k (tasks self) = Some task ->
  exists task', Registry.get k (tasks (perform call self).1) = Some task' /\ R task task'.
Proof using All.
  intros Hget.
  assert (forall k' f, (forall t, R t (f t)) ->
            exists task', Registry.get k (Registry.update k' f (tasks self)) = Some task' /\
                          R task task') as Hupdate.
  { intros k' f Hf. rewrite get_update.
    destruct (decide (k' = k)) as [->|]; rewrite Hget; simpl; eauto. }
  destruct call; simpl.
  - unfold schedule_task. case_match; simpl; [eauto|]. rewrite get_add, Hget. eauto.
  - unfold cancel_task. case_match; simpl; [|eauto]. by apply Hupdate.
  - unfold pause_task. repeat case_match; simpl; try eauto.
  - unfold resume_task. repeat case_match; simpl; eauto.
  - unfold reschedule_task. case_match; simpl; [|eauto].
    apply Hupdate. intros task0. case_match; eauto.
  - unfold force_run_task. destruct (Registry.get task_id (tasks self)); simpl; [|eauto].
    by apply Hupdate.
  - unfold scheduler_loop_iteration.
    pose proof (get_scan current_time runs (tasks self) k) as Hscan.
    destruct (scan current_time runs (tasks self)) as [tasks' log]. simpl in *.
    rewrite Hscan, Hget. simpl. eexists. split; [done|]. case_match; eauto.
Qed.

Lemma perform_all_related history self k task :
  Registry.get k (tasks self) = Some task ->
  exists task', Registry.get k (tasks (perform_all history self).1) = Some task' /\
                R task task'.
Proof using All.
  revert self task. induction history as [|call history IH]; intros self task Hget; [eauto|].
  rewrite perform_all_cons. simpl.
  destruct (perform_related call self k task Hget) as (task1 & Hget1 & HR1).
  destruct (IH _ task1 Hget1) as (task' & Hget' & HR'). eauto.
Qed.

End Related.

(** X4.  No call removes a task or reorders the registry: the ids known
    before a history of calls are, in the same order, the first ids known
    after it. *)
Theorem tasks_are_never_removed (history : list Call) (self : SchedulerService) :
  Registry.keys (tasks self)
    `prefix_of` Registry.keys (tasks (perform_all history self).1).
Proof.
  revert self. induction history as [|call history IH]; intros self; [done|].
  rewrite perform_all_cons. simpl.
  etrans; [apply (keys_prefix_perform call) | apply IH].
Qed.

(** X5.  The id, the handler, [max_runs], the priority and [created_at] of
    a task record are the same after any history of calls as before it. *)
Theorem identity_is_immutable (history : list Call) (self : SchedulerService)
    (task_id : string) (task : Task) :
  Registry.get task_id (tasks self) = Some task ->
  exists task',
    Registry.get task_id (tasks (perform_all history self).1) = Some task' /\
    same_identity task task'.
Proof.
  apply (perform_all_related same_identity); unfold same_identity.
  - done.
  - intros a b c (-> & -> & -> & -> & ->) (-> & -> & -> & -> & ->). done.
  - done.
  - done.
  - done.
  - intros run t. unfold _execute_task, execute_body.
    by repeat (case_match; simplify_eq/=).
Qed.

(** The theorem at work on a history that uses every call. *)
Lemma identity_is_immutable_witness :
  let runs := fun _ : string => ok_run (utc 738886 30) PyNone in
  let history :=
    [Tick (utc 738886 30) runs; ForceRun "job" (failing_run (utc 738886 40));
     Cancel "job"; Resume "job" None (utc 738886 50); Pause "job";
     Reschedule "job" (utc 738886 60) (Some 10);
     Schedule "job" 3%nat T2024 None (Some 5) LOW (utc 738886 61);
     Tick (utc 738886 90) runs] in
  exists task',
    Registry.get "job" (tasks (perform_all history pending_state).1) = Some task' /\
    handler task' = 1%nat /\ max_runs task' = None /\ priority task' = NORMAL.
Proof.
  intros runs history.
  destruct (identity_is_immutable history pending_state "job" _ eq_refl)
    as (task' & Hget & _ & Hhandler & Hmax & Hpriority & _).
  exists task'. split; [exact Hget|]. split; [exact Hhandler|]. split; [exact Hmax|exact Hpriority].
Defined.

(** X6.  [task_handlers] is written but never read: two schedulers with the
    same task records go through any history of calls with the same task
    records and the same handler invocations, whatever their
    [task_handlers]. *)
Theorem task_handlers_is_never_read (history : list Call)
    (self1 self2 : SchedulerService) :
  tasks self1 = tasks self2 ->
  tasks (perform_all history self1).1 = tasks (perform_all history self2).1 /\
  (perform_all history self1).2 = (perform_all history self2).2.
Proof.
  revert self1 self2. induction history as [|call history IH]; intros self1 self2 Htasks; [done|].
  rewrite !perform_all_cons. simpl.
  assert (tasks (perform call self1).1 = tasks (perform call self2).1 /\
          (perform call self1).2 = (perform call self2).2) as [Htasks' Hlog].
  { destruct call; simpl;
      unfold schedule_task, cancel_task, pause_task, resume_task, reschedule_task,
        force_run_task, scheduler_loop_iteration;
      rewrite Htasks; repeat (case_match; simplify_eq/=); done. }
  destruct (IH _ _ Htasks') as [Hfinal Hlogs]. by rewrite Hfinal, Hlog, Hlogs.
Qed.

(** The theorem at work: a task whose id was deleted from [task_handlers] by
    hand is run by the loop all the same. *)
Lemma task_handlers_is_never_read_witness :
  let runs := fun _ : string => ok_run (utc 738886 30) PyNone in
  (perform_all [Tick (utc 738886 30) runs] (mkScheduler (tasks pending_state) ∅)).2
  = (perform_all [Tick (utc 738886 30) runs] pending_state).2.
Proof.
  intros runs.
  exact (proj2 (task_handlers_is_never_read [Tick (utc 738886 30) runs]
                  (mkScheduler (tasks pending_state) ∅) pending_state eq_refl)).
Defined.

(** ** More about one loop iteration *)

(** X7.  One loop iteration invokes the handlers of exactly the tasks that
    are [PENDING] with [next_run <= current_time], each with the handler of
    its record, in the order in which the tasks were scheduled; neither the
    priorities nor the outcomes of the earlier handlers play a part. *)
Theorem loop_dispatch_order (current_time : datetime) (runs : string -> Run)
    (self : SchedulerService) :
  (scheduler_loop_iteration current_time runs self).2
  = (fun item => Invoked ByLoop item.1 (handler item.2))
      <$> filter (fun item => is_due current_time item.2 = true) (tasks self).
Proof.
  unfold scheduler_loop_iteration.
  assert ((scan current_time runs (tasks self)).2
          = (fun item => Invoked ByLoop item.1 (handler item.2))
              <$> filter (fun item => is_due current_time item.2 = true) (tasks self)) as Hlog.
  { unfold Registry.t. induction (tasks self) as [|[k task] d IH]; [done|].
    rewrite scan_cons, filter_cons. simpl.
    destruct (decide (is_due current_time task = true)) as [Hdue|Hdue].
    - rewrite Hdue, fmap_cons, <- IH. done.
    - apply not_true_is_false in Hdue. rewrite Hdue, <- IH. done. }
  by destruct (scan current_time runs (tasks self)).
Qed.

(** X8.  In one loop iteration the handler of a task is invoked at most
    once. *)
Theorem loop_invokes_at_most_once (current_time : datetime) (runs : string -> Run)
    (self : SchedulerService) (task_id : string) :
  wf self ->
  (length (invocations_of task_id (scheduler_loop_iteration current_time runs self).2)
   <= 1)%nat.
Proof.
  intros Hwf. unfold scheduler_loop_iteration.
  destruct (Registry.get task_id (tasks self)) as [task|] eqn:Hget.
  - destruct (is_due current_time task) eqn:Hdue.
    + pose proof (scan_invokes_once current_time runs (tasks self) task_id task
                    Hwf Hget Hdue) as Hlog.
      destruct (scan current_time runs (tasks self)). simpl in *. by rewrite Hlog.
    + destruct (iteration_skips current_time runs self task_id task Hwf Hget Hdue)
        as [_ Hlog].
      unfold scheduler_loop_iteration in Hlog.
      destruct (scan current_time runs (tasks self)). simpl in *. rewrite Hlog. simpl. lia.
  - pose proof (scan_skips_absent current_time runs (tasks self) task_id) as Hlog.
    destruct (scan current_time runs (tasks self)). simpl in *.
    rewrite Hlog; [simpl; lia | by apply get_None].
Qed.

(** The theorem at work on an iteration in which two tasks run. *)
Lemma loop_invokes_at_most_once_witness :
  let self :=
    (perform_all [Schedule "probe" 2%nat T2024 (Some 300) None HIGH T2024] pending_state).1 in
  let runs := fun _ : string => ok_run (utc 738886 30) PyNone in
  (length (invocations_of "job" (scheduler_loop_iteration (utc 738886 30) runs self).2)
   <= 1)%nat.
Proof.
  intros self runs.
  apply (loop_invokes_at_most_once (utc 738886 30) runs self "job").
  apply (perform_all_wf _ pending_state), (perform_all_wf _ init), init_wf.
Defined.

(** X9.  A loop iteration that finds no task due invokes nothing and leaves
    the scheduler exactly as it was. *)
Theorem idle_iteration_is_noop (current_time : datetime) (runs : string -> Run)
    (self : SchedulerService) :
  Forall (fun item => is_due current_time item.2 = false) (tasks self) ->
  scheduler_loop_iteration current_time runs self = (self, []).
Proof.
  intros Hidle. unfold scheduler_loop_iteration.
  rewrite scan_idle by done. by destruct self.
Qed.

(** The theorem at work: an iteration one second before the task is due. *)
Lemma idle_iteration_is_noop_witness :
  scheduler_loop_iteration (utc 738885 86399) (fun _ => ok_run (utc 738885 86399) PyNone)
    pending_state
  = (pending_state, []).
Proof.
  apply idle_iteration_is_noop. repeat constructor.
Defined.

(** ** [last_error] *)

(** X10.  [last_error] is written by failed executions only and never
    cleared: an execution that does not end in [FAILED] keeps it as it is,
    and a task that has a [last_error] still has one after any history of
    calls, successful runs included. *)
Theorem last_error_is_never_cleared :
  (forall run task,
     status (_execute_task run task) <> FAILED ->
     last_error (_execute_task run task) = last_error task) /\
  (forall history self task_id task,
     Registry.get task_id (tasks self) = Some task ->
     is_Some (last_error task) ->
     exists task',
       Registry.get task_id (tasks (perform_all history self).1) = Some task' /\
       is_Some (last_error task')).
Proof.
  split.
  - intros run task. unfold _execute_task, execute_body.
    by repeat (case_match; simplify_eq/=).
  - intros history self task_id task Hget Herror.
    destruct (perform_all_related
                (fun t t' => is_Some (last_error t) -> is_Some (last_error t')))
      with (history := history) (self := self) (k := task_id) (task := task)
      as (task' & Hget' & Hkept); try done.
    + intros a b c Hab Hbc. auto.
    + intros run t. unfold _execute_task, execute_body.
      by repeat (case_match; simplify_eq/=).
    + eauto.
Qed.

(** The theorem at work: the failed task is rescheduled and then runs with
    success; it is [PENDING] again and still carries the old message. *)
Lemma last_error_is_never_cleared_witness :
  let history := [Reschedule "job" (utc 738886 60) None;
                  Tick (utc 738886 90) (fun _ => ok_run (utc 738886 90) PyNone)] in
  status_of "job" (perform_all history failed_state).1 = Some PENDING /\
  exists task',
    Registry.get "job" (tasks (perform_all history failed_state).1) = Some task' /\
    is_Some (last_error task').
Proof.
  intros history. split; [reflexivity|].
  apply (proj2 last_error_is_never_cleared history failed_state "job" _ eq_refl).
  by eexists.
Defined.

(** ** [run_count] and the number of invocations *)

Section Counting.

Implicit Types (self : SchedulerService) (k : string) (call : Call).

Lemma invoked_counts d k h (log : list Invocation) :
  Invoked d k h ∈ log -> (1 <= length (invocations_of k log))%nat.
Proof.
  intros Hin. unfold invocations_of.
  assert (Invoked d k h ∈ filter (fun inv => invoked_task inv = k) log) as Hfiltered
    by (by apply list_elem_of_filter).
  destruct (filter _ log); [by apply elem_of_nil in Hfiltered | simpl; lia].
Qed.

Lemma execute_run_count_step run task :
  run_count task <= run_count (_execute_task run task) <= run_count task + 1.
Proof. rewrite execute_run_count. destruct (outcome run); lia. Qed.

Lemma perform_counts call self k task' :
  Registry.get k (tasks (perform call self).1) = Some task' ->
  (exists task, Registry.get k (tasks self) = Some task /\
     run_count task <= run_count task'
       <= run_count task + Z.of_nat (length (invocations_of k (perform call self).2))) \/
  (Registry.get k (tasks self) = None /\ run_count task' = 0).
Proof.
  assert (forall k' f,
            (forall t, run_count (f t) = run_count t) ->
            Registry.get k (Registry.update k' f (tasks self)) = Some task' ->
            exists task, Registry.get k (tasks self) = Some task /\
              run_count task <= run_count task' <= run_count task + Z.of_nat 0) as Hupdate.
  { intros k' f Hf. rewrite get_update.
    destruct (decide (k' = k)) as [->|]; destruct (Registry.get k (tasks self)) as [t|];
      simpl; intros [= <-]; exists t; rewrite ?Hf; split; (done || lia). }
  assert (forall task, Registry.get k (tasks self) = Some task -> task = task' ->
            exists task, Registry.get k (tasks self) = Some task /\
              run_count task <= run_count task' <= run_count task + Z.of_nat 0) as Hsame.
  { intros task Hget <-. exists task. split; [done | lia]. }
  destruct call; simpl.
  - unfold schedule_task.
    destruct (Registry.get task_id (tasks self)) eqn:Hfound; simpl.
    + intros Hget. left. by apply (Hsame task').
    + rewrite get_add. destruct (Registry.get k (tasks self)) eqn:Hget.
      * intros [= <-]. left. by apply (Hsame t).
      * case_decide; [|done]. intros [= <-]. by right.
  - unfold cancel_task. case_match; simpl; intros Hget; left;
      [by apply (Hupdate task_id (set_status CANCELLED)) | by apply (Hsame task')].
  - unfold pause_task. repeat case_match; simpl; intros Hget; left;
      [by apply (Hupdate task_id (set_status CANCELLED)) | by apply (Hsame task')..].
  - unfold resume_task. repeat case_match; simpl; intros Hget; left;
      first [by apply (Hsame task') | by eapply Hupdate; [|exact Hget]].
  - unfold reschedule_task. case_match; simpl; intros Hget; left;
      [|by apply (Hsame task')].
    eapply Hupdate; [|exact Hget]. intros task0. by case_match.
  - unfold force_run_task.
    destruct (Registry.get task_id (tasks self)) as [found|] eqn:Hfound; simpl;
      [|intros Hget; left; by apply (Hsame task')].
    rewrite get_update. destruct (decide (task_id = k)) as [->|Hne].
    + rewrite Hfound. simpl. intros [= <-]. left. exists found. split; [done|].
      unfold invocations_of. rewrite filter_cons. simpl. rewrite decide_True by done.
      simpl. pose proof (execute_run_count_step run found). lia.
    + intros Hget. left. exists task'. split; [done|]. lia.
  - unfold scheduler_loop_iteration.
    pose proof (get_scan current_time runs (tasks self) k) as Hscan.
    pose proof (scan_invokes_due current_time runs (tasks self) k) as Hdue.
    destruct (scan current_time runs (tasks self)) as [tasks' log]. simpl in *.
    rewrite Hscan. destruct (Registry.get k (tasks self)) as [task|]; [|done].
    simpl. intros [= <-]. left. exists task. split; [done|].
    destruct (is_due current_time task) eqn:Htask; [|lia].
    pose proof (invoked_counts _ _ _ _ (Hdue task eq_refl Htask)).
    pose proof (execute_run_count_step (runs k) task). lia.
Qed.

Lemma perform_all_counts history self (bound : string -> Z) :
  (forall k, 0 <= bound k) ->
  (forall k task, Registry.get k (tasks self) = Some task ->
                  0 <= run_count task <= bound k) ->
  forall k task', Registry.get k (tasks (perform_all history self).1) = Some task' ->
    0 <= run_count task'
      <= bound k + Z.of_nat (length (invocations_of k (perform_all history self).2)).
Proof.
  revert self bound.
  induction history as [|call history IH]; intros self bound Hpos Hbound k task'.
  - simpl. intros Hget. specialize (Hbound k task' Hget). lia.
  - rewrite perform_all_cons. simpl. intros Hget.
    rewrite invocations_of_app, length_app, Nat2Z.inj_add.
    specialize (IH (perform call self).1
                  (fun k => bound k + Z.of_nat (length (invocations_of k (perform call self).2)))).
    simpl in IH. rewrite Z.add_assoc. apply IH; [| |done].
    + intros k1. specialize (Hpos k1). lia.
    + intros k1 task1 Hget1. specialize (Hpos k1).
      destruct (perform_counts call self k1 task1 Hget1) as [(task0 & Hget0 & Hle)|[_ ->]].
      * specialize (Hbound k1 task0 Hget0). lia.
      * lia.
Qed.

End Counting.

(** X11.  On a service that started empty, the [run_count] of a task never
    exceeds the number of times its handler was invoked, by the loop or by
    forced runs, and is never negative. *)
Theorem run_count_bounded_by_invocations (history : list Call) (task_id : string)
    (task : Task) :
  Registry.get task_id (tasks (perform_all history init).1) = Some task ->
  0 <= run_count task
    <= Z.of_nat (length (invocations_of task_id (perform_all history init).2)).
Proof.
  intros Hget.
  apply (perform_all_counts history init (fun _ => 0)); [done | | done].
  intros k t Hinit. discriminate Hinit.
Qed.

(** The theorem at work: one failed and one successful run. *)
Lemma run_count_bounded_by_invocations_witness :
  let history :=
    [Schedule "job" 1%nat T2024 (Some 60) None NORMAL T2024;
     Tick (utc 738886 30) (fun _ => failing_run (utc 738886 30));
     ForceRun "job" (ok_run (utc 738886 40) PyNone)] in
  exists task,
    Registry.get "job" (tasks (perform_all history init).1) = Some task /\
    0 <= run_count task <= 2.
Proof.
  intros history. eexists. split; [reflexivity|].
  exact (run_count_bounded_by_invocations history "job" _ eq_refl).
Defined.

(** ** [max_runs] *)

Section Limit.

Implicit Types (self : SchedulerService) (k : string) (call : Call) (task : Task).

Lemma execute_within_limit run task :
  status task = PENDING -> within_limit task -> within_limit (_execute_task run task).
Proof.
  intros Hpending Hlimit m Hmax Hpos.
  assert (max_runs task = Some m) as Hmax0.
  { revert Hmax. unfold _execute_task, execute_body.
    by repeat (case_match; simplify_eq/=). }
  destruct (Hlimit m Hmax0 Hpos) as [_ Hbelow].
  specialize (Hbelow (or_introl Hpending)).
  clear Hmax. unfold _execute_task, execute_body, max_runs_reached, truthy. simpl.
  rewrite Hmax0.
  destruct (outcome run) as [result|[message|]]; simpl.
  - destruct (m =? 0) eqn:Hzero; [apply Z.eqb_eq in Hzero; lia|]. simpl.
    destruct (m <=? run_count task + 1) eqn:Hreached; simpl.
    + apply Z.leb_le in Hreached. split; [lia | by intros [|]].
    + apply Z.leb_gt in Hreached.
      repeat (case_match; simplify_eq/=); split; (lia || by intros [|]).
  - split; [lia | by intros [|]].
  - split; [lia | intros _; lia].
Qed.

Lemma perform_within_limit call self k task :
  Registry.get k (tasks self) = Some task ->
  within_limit task ->
  is_gentle_for k call = true ->
  exists task', Registry.get k (tasks (perform call self).1) = Some task' /\
                within_limit task' /\ max_runs task' = max_runs task.
Proof.
  intros Hget Hlimit Hgentle.
  unfold is_gentle_for in Hgentle. apply negb_true_iff in Hgentle.
  apply orb_false_iff in Hgentle as [[Hcancel Hresched]%orb_false_iff Hforce].
  destruct call; simpl in *.
  - unfold schedule_task. case_match; simpl; [eauto|]. rewrite get_add, Hget. eauto.
  - apply bool_decide_eq_false in Hcancel.
    unfold cancel_task. case_match; simpl; [|eauto]. rewrite get_update_ne, Hget by done. eauto.
  - unfold pause_task. case_match; simpl; [|eauto].
    destruct (decide (status _ = PENDING)) as [Hpending|_]; simpl; [|eauto].
    rewrite get_update. destruct (decide (task_id = k)) as [->|]; rewrite Hget; simpl; [|eauto].
    simplify_eq. eexists. split; [done|]. split; [|done].
    intros m Hmax Hpos. destruct (Hlimit m Hmax Hpos) as [Hle Hbelow].
    split; [done|]. intros _. apply Hbelow. by left.
  - unfold resume_task. case_match; simpl; [|eauto].
    destruct (decide (status _ = CANCELLED)) as [Hcancelled|_]; simpl; [|eauto].
    repeat case_match; simpl; rewrite get_update;
      (destruct (decide (task_id = k)) as [->|]; rewrite Hget; simpl; [|eauto]);
      simplify_eq; (eexists; split; [done|]; split; [|done]);
      intros m Hmax Hpos; destruct (Hlimit m Hmax Hpos) as [Hle Hbelow];
      (split; [done|]); intros _; apply Hbelow; by right.
  - apply bool_decide_eq_false in Hresched.
    unfold reschedule_task. case_match; simpl; [|eauto].
    rewrite get_update_ne, Hget by done. eauto.
  - apply bool_decide_eq_false in Hforce.
    unfold force_run_task. destruct (Registry.get task_id (tasks self)); simpl; [|eauto].
    rewrite get_update_ne, Hget by done. eauto.
  - unfold scheduler_loop_iteration.
    pose proof (get_scan current_time runs (tasks self) k) as Hscan.
    destruct (scan current_time runs (tasks self)) as [tasks' log]. simpl in *.
    rewrite Hscan, Hget. simpl. eexists. split; [done|].
    destruct (is_due current_time task) eqn:Hdue; [|done].
    apply andb_true_iff in Hdue as [Hpending%bool_decide_eq_true _].
    split; [by apply execute_within_limit|].
    unfold _execute_task, execute_body. by repeat (case_match; simplify_eq/=).
Qed.

(** A recurring task with a positive [max_runs], due and run with success. *)
Lemma execute_recurring run task result seconds m :
  outcome run = Returned result ->
  interval_seconds task = Some seconds -> seconds <> 0 ->
  is_Some (timedelta_seconds seconds) ->
  representable (finished run + seconds * US_PER_SECOND) = true ->
  max_runs task = Some m -> 0 < m ->
  let task' := _execute_task run task in
  run_count task' = run_count task + 1 /\
  interval_seconds task' = Some seconds /\
  max_runs task' = Some m /\
  (if decide (m <= run_count task + 1)
   then status task' = COMPLETED
   else status task' = PENDING /\
        next_run task' = finished run + seconds * US_PER_SECOND).
Proof.
  intros Hout Hinterval Hnonzero Hdelta Hsum Hmax Hpos.
  unfold _execute_task, execute_body, max_runs_reached, truthy. rewrite Hout. simpl.
  rewrite Hmax, Hinterval.
  rewrite (proj2 (Z.eqb_neq m 0)) by lia.
  rewrite (proj2 (Z.eqb_neq seconds 0)) by done. simpl.
  rewrite after_seconds_representable by done.
  destruct (decide (m <= run_count task + 1)) as [Hle|Hgt].
  - rewrite (proj2 (Z.leb_le _ _) Hle). by split_and!.
  - rewrite (proj2 (Z.leb_gt _ _)) by lia. by split_and!.
Qed.

End Limit.

(** X12.  A task with a positive [max_runs] that is [PENDING] with runs
    left never gets a [run_count] above [max_runs] through loop iterations,
    [schedule], [pause] and [resume], that is, through any calls except
    [cancel], [reschedule] and [force_run] of the task itself; and whenever
    it is [PENDING] afterwards it still has runs left. *)
Theorem max_runs_bounds_loop_runs (history : list Call) (self : SchedulerService)
    (task_id : string) (task : Task) (m : Z) :
  Registry.get task_id (tasks self) = Some task ->
  max_runs task = Some m -> 0 < m ->
  status task = PENDING -> run_count task < m ->
  Forall (fun call => is_gentle_for task_id call = true) history ->
  exists task',
    Registry.get task_id (tasks (perform_all history self).1) = Some task' /\
    run_count task' <= m /\
    (status task' = PENDING -> run_count task' < m).
Proof.
  intros Hget Hmax Hpos Hpending Hbelow Hhistory.
  assert (within_limit task) as Hlimit.
  { intros m' Hmax' _. rewrite Hmax in Hmax'. injection Hmax' as <-. split; [lia | done]. }
  clear Hpending Hbelow.
  assert (exists task',
            Registry.get task_id (tasks (perform_all history self).1) = Some task' /\
            within_limit task' /\ max_runs task' = Some m) as (task' & Hget' & Hlimit' & Hmax').
  { revert self task Hget Hmax Hlimit.
    induction Hhistory as [|call history Hgentle _ IH]; intros self task Hget Hmax Hlimit.
    - by exists task.
    - rewrite perform_all_cons. simpl.
      destruct (perform_within_limit call self task_id task Hget Hlimit Hgentle)
        as (task1 & Hget1 & Hlimit1 & Hmax1).
      apply (IH _ task1); [done | by rewrite Hmax1 | done]. }
  exists task'. split; [done|]. destruct (Hlimit' m Hmax' Hpos) as [Hle Hlt].
  split; [done|]. intros Hpending'. apply Hlt. by left.
Qed.

(** The theorem at work: a task with [max_runs = 2] meets three iterations
    in which it would be due. *)
Lemma max_runs_bounds_loop_runs_witness :
  let runs := fun _ : string => ok_run (utc 738886 30) PyNone in
  let self := (perform_all [Schedule "twice" 5%nat T2024 (Some (-60)) (Some 2) NORMAL T2024]
                           init).1 in
  let history := [Tick (utc 738886 30) runs; Pause "twice";
                  Resume "twice" (Some T2024) (utc 738886 31);
                  Tick (utc 738886 40) runs; Tick (utc 738886 50) runs] in
  exists task',
    Registry.get "twice" (tasks (perform_all history self).1) = Some task' /\
    run_count task' <= 2 /\
    (status task' = PENDING -> run_count task' < 2).
Proof.
  intros runs self history.
  apply (max_runs_bounds_loop_runs history self "twice" _ 2 eq_refl eq_refl).
  - lia.
  - reflexivity.
  - simpl. lia.
  - repeat constructor.
Defined.

(** X13.  A recurring task with interval [seconds] and [max_runs = m] that
    has run [c < m] times is [COMPLETED] with [run_count = m] after [m - c]
    loop iterations in each of which it is due and its handler returns; its
    handler is invoked once in each of them.  After every run but the last,
    [next_run] is the completion time plus the interval, which is what
    "due" refers to in the next iteration. *)
Theorem recurring_task_completes (iterations : list (datetime * (string -> Run)))
    (self : SchedulerService) (task_id : string) (task : Task) (seconds m : Z) :
  wf self ->
  Registry.get task_id (tasks self) = Some task ->
  status task = PENDING ->
  interval_seconds task = Some seconds -> seconds <> 0 ->
  is_Some (timedelta_seconds seconds) ->
  max_runs task = Some m ->
  0 <= run_count task < m ->
  Z.of_nat (length iterations) = m - run_count task ->
  well_spaced task_id seconds (next_run task) iterations ->
  exists task',
    Registry.get task_id (tasks (perform_all (ticks iterations) self).1) = Some task' /\
    status task' = COMPLETED /\
    run_count task' = m /\
    length (invocations_of task_id (perform_all (ticks iterations) self).2)
    = length iterations.
Proof.
  intros Hwf Hget Hpending Hinterval Hnonzero Hdelta Hmax Hcount Hlength Hspaced.
  revert self task Hwf Hget Hpending Hinterval Hmax Hcount Hlength Hspaced.
  induction iterations as [|[current_time runs] iterations IH];
    intros self task Hwf Hget Hpending Hinterval Hmax Hcount Hlength Hspaced.
  { simpl in Hlength. lia. }
  destruct Hspaced as (Hdue & [result Hout] & Hsum & Hspaced).
  assert (is_due current_time task = true) as Hdue'.
  { unfold is_due. rewrite bool_decide_eq_true_2 by done. by apply Z.leb_le. }
  unfold ticks. rewrite fmap_cons, perform_all_cons. fold (ticks iterations).
  cbn [perform fst snd].
  destruct (iteration_runs_due current_time runs self task_id task Hget Hdue')
    as [Hget1 _].
  assert (invocations_of task_id (scheduler_loop_iteration current_time runs self).2
          = [Invoked ByLoop task_id (handler task)]) as Hlog1.
  { pose proof (scan_invokes_once current_time runs (tasks self) task_id task
                  Hwf Hget Hdue') as Hlog.
    unfold scheduler_loop_iteration.
    by destruct (scan current_time runs (tasks self)). }
  assert (wf (scheduler_loop_iteration current_time runs self).1) as Hwf1
    by apply (perform_wf (Tick current_time runs) self Hwf).
  destruct (execute_recurring (runs task_id) task result seconds m)
    as (Hcount1 & Hinterval1 & Hmax1 & Hstatus1); try done; [lia|].
  rewrite invocations_of_app, Hlog1, length_app. simpl.
  destruct (decide (m <= run_count task + 1)) as [Hlast|Hmore].
  - destruct iterations as [|? ?]; [|simpl in Hlength; lia].
    simpl. eexists. split; [exact Hget1|]. split; [done|]. split; [lia | done].
  - destruct Hstatus1 as [Hpending1 Hnext1].
    destruct (IH (scheduler_loop_iteration current_time runs self).1
                (_execute_task (runs task_id) task))
      as (task' & Hget' & Hcompleted & Hfinal & Hlogs); try done.
    + lia.
    + simpl in Hlength. lia.
    + by rewrite Hnext1.
    + exists task'. split; [done|]. split; [done|]. split; [done|]. by rewrite Hlogs.
Qed.

(** The theorem at work: three runs, a minute apart. *)
Lemma recurring_task_completes_witness :
  let self := (perform_all [Schedule "thrice" 5%nat T2024 (Some 60) (Some 3) NORMAL T2024]
                           init).1 in
  let iterations :=
    [(utc 738886 0, fun _ : string => ok_run (utc 738886 0) PyNone);
     (utc 738886 90, fun _ : string => ok_run (utc 738886 90) PyNone);
     (utc 738886 180, fun _ : string => ok_run (utc 738886 180) PyNone)] in
  exists task',
    Registry.get "thrice" (tasks (perform_all (ticks iterations) self).1) = Some task' /\
    status task' = COMPLETED /\
    run_count task' = 3 /\
    length (invocations_of "thrice" (perform_all (ticks iterations) self).2) = 3%nat.
Proof.
  intros self iterations.
  eapply (recurring_task_completes iterations self "thrice" _ 60 3).
  - apply (perform_all_wf _ init), init_wf.
  - reflexivity.
  - reflexivity.
  - reflexivity.
  - discriminate.
  - by eexists.
  - reflexivity.
  - simpl. lia.
  - reflexivity.
  - simpl. unfold utc, SECONDS_PER_DAY, US_PER_SECOND.
    repeat (split; [lia || (by eexists) || reflexivity|]). done.
Defined.

(** ** [shutdown] *)

Section Shutdown.

Implicit Types (self : SchedulerService) (k : string).






End Shutdown.



(** ** The default handlers *)

(** X15.  A default handler never makes its task [FAILED]: an exception
    raised inside it is turned into the result [{"error": message}], so the
    executor counts the run as a success -- [run_count] grows by one,
    [last_error] is not written, and the default tasks, which recur and have
    no [max_runs], go back to [PENDING]; the message is found in
    [last_result] only. *)
Theorem default_handler_errors_are_swallowed (run : Run) (task : Task)
    (attempt : Attempt) :
  outcome run ∈ [_cleanup_old_data attempt; _retrain_prediction_models attempt;
                 _check_sensor_status attempt; _cleanup_notifications attempt] ->
  attempt <> Interrupted ->
  (forall seconds, interval_seconds task = Some seconds -> seconds <> 0 ->
     is_Some (timedelta_seconds seconds) /\
     representable (finished run + seconds * US_PER_SECOND) = true) ->
  let task' := _execute_task run task in
  status task' <> FAILED /\
  last_error task' = last_error task /\
  run_count task' = run_count task + 1 /\
  (forall message, attempt = Fails message ->
     last_result task' = PyDict [("error"%string, PyStr message)]) /\
  (max_runs task = None ->
   forall seconds, interval_seconds task = Some seconds -> seconds <> 0 ->
     status task' = PENDING).
Proof.
  intros Hout Hattempt Hfits.
  assert (exists result, outcome run = Returned result /\
            forall message, attempt = Fails message ->
              result = PyDict [("error"%string, PyStr message)])
    as (result & Hreturned & Hmessage).
  { rewrite !elem_of_cons in Hout.
    destruct Hout as [->|[->|[->|[->|Hout]]]]; [..|by apply elem_of_nil in Hout];
      destruct attempt; try done; simpl; eexists; (split; [done|]);
      intros ? ?; by simplify_eq. }
  simpl. unfold _execute_task, execute_body. rewrite Hreturned. simpl.
  destruct (max_runs_reached _) eqn:Hreached; simpl.
  { split_and!; [done | done | done | by auto |].
    intros Hnone. unfold max_runs_reached in Hreached. simpl in Hreached.
    by rewrite Hnone in Hreached. }
  destruct (interval_seconds task) as [seconds|] eqn:Hinterval; simpl.
  - destruct (decide (seconds = 0)) as [->|Hnonzero]; simpl.
    + split_and!; [done | done | done | by auto |]. by intros _ ? [= <-].
    + rewrite (proj2 (Z.eqb_neq seconds 0) Hnonzero). simpl.
      destruct (Hfits seconds eq_refl Hnonzero) as [Hdelta Hsum].
      rewrite after_seconds_representable by done. simpl.
      split_and!; [done | done | done | by auto | done].
  - split_and!; [done | done | done | by auto | done].
Qed.

(** The theorem at work: the sensor check fails inside, and its task goes
    on. *)
Lemma default_handler_errors_are_swallowed_witness :
  let run := mkRun (utc 738886 300) (_check_sensor_status (Fails "connection refused"))
                   (utc 738886 301) in
  let task := mkTask "check_sensor_status" ref_check_sensor_status (utc 738886 300)
                     (Some 300) None 0 HIGH PENDING T2024 None PyNone None in
  status (_execute_task run task) = PENDING /\
  last_error (_execute_task run task) = None /\
  last_result (_execute_task run task) = PyDict [("error"%string, PyStr "connection refused")].
Proof.
  intros run task.
  destruct (default_handler_errors_are_swallowed run task (Fails "connection refused"))
    as (_ & Herror & _ & Hresult & Hpending).
  - rewrite !elem_of_cons. right. right. left. reflexivity.
  - discriminate.
  - intros seconds [= <-] _. split; [by eexists | reflexivity].
  - split; [apply (Hpending eq_refl 300 eq_refl); lia|].
    split; [exact Herror | apply Hresult; reflexivity].
Defined.

(** ** The edges of the executor *)

(** X16.  When a recurring task completes a run but its interval is so
    large that the completion time plus the interval is no [datetime], the
    run is counted and its result stored, and the task ends [FAILED] with a
    [last_error], its [next_run] unchanged. *)
Theorem unrepresentable_next_run_fails (run : Run) (task : Task) (result : PyValue)
    (seconds : Z) :
  outcome run = Returned result ->
  max_runs_reached (set_run_count (run_count task + 1) task) = false ->
  interval_seconds task = Some seconds -> seconds <> 0 ->
  timedelta_seconds seconds = None \/
    representable (finished run + seconds * US_PER_SECOND) = false ->
  let task' := _execute_task run task in
  status task' = FAILED /\
  is_Some (last_error task') /\
  run_count task' = run_count task + 1 /\
  last_result task' = result /\
  next_run task' = next_run task.
Proof.
  intros Hout Hreached Hinterval Hnonzero Hoverflow.
  simpl. unfold _execute_task, execute_body. rewrite Hout. simpl.
  assert (max_runs_reached
            (set_run_count (run_count task + 1)
               (set_last_result result
                  (set_last_run (Some (started run)) (set_status RUNNING task)))) = false) as ->
    by exact Hreached.
  rewrite Hinterval. simpl. rewrite (proj2 (Z.eqb_neq seconds 0) Hnonzero). simpl.
  assert (exists message, after_seconds (finished run) seconds = inl message)
    as [message ->].
  { unfold after_seconds, datetime_add.
    destruct (timedelta_seconds seconds) as [delta|] eqn:Hdelta; [|by eexists].
    destruct Hoverflow as [?|Hsum]; [done|].
    unfold timedelta_seconds in Hdelta. case_match; [|done]. injection Hdelta as <-.
    rewrite Hsum. by eexists. }
  simpl. split_and!; done.
Qed.

(** The theorem at work: an interval of 10^15 seconds. *)
Lemma unrepresentable_next_run_fails_witness :
  let run := ok_run (utc 738886 30) deleted_5 in
  let task := mkTask "job" 1%nat T2024 (Some 1000000000000000) None 0 NORMAL PENDING
                     T2024 None PyNone None in
  status (_execute_task run task) = FAILED /\
  run_count (_execute_task run task) = 1 /\
  last_result (_execute_task run task) = deleted_5.
Proof.
  intros run task.
  destruct (unrepresentable_next_run_fails run task deleted_5 1000000000000000)
    as (Hstatus & _ & Hcount & Hresult & _).
  - reflexivity.
  - reflexivity.
  - reflexivity.
  - lia.
  - left. reflexivity.
  - split; [exact Hstatus|]. split; [exact Hcount | exact Hresult].
Defined.

(** X17.  When the handler of a due task is cancelled while the loop
    awaits it, the task becomes [CANCELLED] with nothing else changed but
    [last_run]; its id stays in [task_handlers], and [resume] brings the
    task back to [PENDING]. *)
Theorem cancelled_execution_can_be_resumed (current_time : datetime)
    (runs : string -> Run) (self : SchedulerService) (task_id : string)
    (task : Task) (new_start_time now : datetime) :
  Registry.get task_id (tasks self) = Some task ->
  is_due current_time task = true ->
  outcome (runs task_id) = Raised CancelledError ->
  let self' := (scheduler_loop_iteration current_time runs self).1 in
  Registry.get task_id (tasks self')
    = Some (set_status CANCELLED (set_last_run (Some (started (runs task_id))) task)) /\
  task_handlers self' = task_handlers self /\
  (resume_task task_id (Some new_start_time) now self').2 = true /\
  status_of task_id (resume_task task_id (Some new_start_time) now self').1
    = Some PENDING.
Proof.
  intros Hget Hdue Hout. simpl.
  destruct (iteration_runs_due current_time runs self task_id task Hget Hdue) as [Hget' _].
  assert (_execute_task (runs task_id) task
          = set_status CANCELLED (set_last_run (Some (started (runs task_id))) task)) as Hrun.
  { unfold _execute_task, execute_body. by rewrite Hout. }
  rewrite Hrun in Hget'.
  split; [exact Hget'|]. split.
  - unfold scheduler_loop_iteration. by destruct (scan current_time runs (tasks self)).
  - unfold resume_task, status_of. rewrite Hget'. simpl.
    by rewrite get_update_eq, Hget'.
Qed.

(** The theorem at work on the task of [pending_state]. *)
Lemma cancelled_execution_can_be_resumed_witness :
  let runs := fun _ : string => mkRun (utc 738886 30) (Raised CancelledError) (utc 738886 31) in
  let self' := (scheduler_loop_iteration (utc 738886 30) runs pending_state).1 in
  status_of "job" self' = Some CANCELLED /\
  status_of "job" (resume_task "job" (Some (utc 738886 90)) (utc 738886 40) self').1
  = Some PENDING.
Proof.
  intros runs self'.
  destruct (cancelled_execution_can_be_resumed (utc 738886 30) runs pending_state "job" _
              (utc 738886 90) (utc 738886 40) eq_refl eq_refl eq_refl)
    as (Hget & _ & _ & Hresumed).
  split; [|exact Hresumed].
  unfold status_of, self'. rewrite Hget. reflexivity.
Defined.

(** ** The default tasks *)

Section Bootstrap.

Implicit Types (self : SchedulerService) (k : string) (utcnow : nat -> datetime).

Lemma schedule_known k h start iv mr prio now self :
  is_Some (Registry.get k (tasks self)) ->
  schedule_task k h start iv mr prio now self = (self, false).
Proof. intros [task Hget]. unfold schedule_task. by rewrite Hget. Qed.

Lemma schedule_keeps k k' h start iv mr prio now self task :
  Registry.get k (tasks self) = Some task ->
  Registry.get k (tasks (schedule_task k' h start iv mr prio now self).1) = Some task.
Proof.
  intros Hget. unfold schedule_task. case_match; simpl; [done|].
  by rewrite get_add, Hget.
Qed.

Lemma schedule_makes_known k h start iv mr prio now self :
  is_Some (Registry.get k (tasks (schedule_task k h start iv mr prio now self).1)).
Proof.
  unfold schedule_task. destruct (Registry.get k (tasks self)) eqn:Hget; simpl.
  - by rewrite Hget.
  - rewrite get_add, Hget, decide_True by done. by eexists.
Qed.

Lemma bootstrap_keeps utcnow self k task :
  Registry.get k (tasks self) = Some task ->
  Registry.get k (tasks (_schedule_default_tasks utcnow self)) = Some task.
Proof.
  intros Hget. unfold _schedule_default_tasks.
  repeat (case_match; [|eauto using schedule_keeps]).
  eauto using schedule_keeps.
Qed.

Lemma bootstrap_fixed utcnow self :
  Forall (fun k => is_Some (Registry.get k (tasks self))) default_task_ids ->
  _schedule_default_tasks utcnow self = self.
Proof.
  unfold default_task_ids. rewrite !Forall_cons. intros (H1 & H2 & H3 & H4 & _).
  unfold _schedule_default_tasks.
  repeat (case_match; [|done]; rewrite schedule_known by done; simpl).
  done.
Qed.

Lemma bootstrap_known utcnow self :
  representable (utcnow 0%nat + timedelta_hours 1) = true ->
  representable (utcnow 2%nat + timedelta_hours 2) = true ->
  representable (utcnow 4%nat + timedelta_minutes 5) = true ->
  representable (utcnow 6%nat + timedelta_hours 6) = true ->
  Forall (fun k => is_Some (Registry.get k (tasks (_schedule_default_tasks utcnow self))))
         default_task_ids.
Proof.
  intros H0 H2 H4 H6. unfold _schedule_default_tasks, datetime_add.
  rewrite H0, H2, H4, H6.
  pose proof schedule_makes_known as Hnew.
  assert (forall k k' h start iv mr prio now s,
            is_Some (Registry.get k (tasks s)) ->
            is_Some (Registry.get k (tasks (schedule_task k' h start iv mr prio now s).1)))
    as Hkeep.
  { intros k k' h start iv mr prio now s [task Hget]. exists task. by apply schedule_keeps. }
  unfold default_task_ids. rewrite !Forall_cons.
  split_and!.
  - do 3 apply Hkeep. apply Hnew.
  - do 2 apply Hkeep. apply Hnew.
  - apply Hkeep, Hnew.
  - apply Hnew.
  - apply Forall_nil_2.
Qed.

End Bootstrap.

(** X18.  [_schedule_default_tasks] never touches a task that exists
    already, one carrying the id of a default task included; with a clock
    that is not at the very end of the [datetime] range all four default ids
    are known afterwards, and running it a second time, with whatever clock,
    changes nothing. *)
Theorem bootstrap_is_idempotent (utcnow utcnow' : nat -> datetime)
    (self : SchedulerService) :
  representable (utcnow 0%nat + timedelta_hours 1) = true ->
  representable (utcnow 2%nat + timedelta_hours 2) = true ->
  representable (utcnow 4%nat + timedelta_minutes 5) = true ->
  representable (utcnow 6%nat + timedelta_hours 6) = true ->
  (forall task_id task,
     Registry.get task_id (tasks self) = Some task ->
     Registry.get task_id (tasks (_schedule_default_tasks utcnow self)) = Some task) /\
  Forall (fun task_id =>
            is_Some (Registry.get task_id (tasks (_schedule_default_tasks utcnow self))))
         default_task_ids /\
  _schedule_default_tasks utcnow' (_schedule_default_tasks utcnow self)
  = _schedule_default_tasks utcnow self.
Proof.
  intros H0 H2 H4 H6. split; [|split].
  - intros task_id task. apply bootstrap_keeps.
  - by apply bootstrap_known.
  - apply bootstrap_fixed. by apply bootstrap_known.
Qed.

(** The theorem at work: a task that took the id of a default task before
    the bootstrap keeps its own handler. *)
Lemma bootstrap_is_idempotent_witness :
  let utcnow := fun _ : nat => T2024 in
  let self := (perform_all [Schedule "retrain_models" 7%nat T2024 None None URGENT T2024]
                           init).1 in
  (handler <$> Registry.get "retrain_models" (tasks (_schedule_default_tasks utcnow self)))
  = Some 7%nat /\
  _schedule_default_tasks utcnow (_schedule_default_tasks utcnow self)
  = _schedule_default_tasks utcnow self.
Proof.
  intros utcnow self.
  destruct (bootstrap_is_idempotent utcnow utcnow self eq_refl eq_refl eq_refl eq_refl)
    as (Hkeeps & _ & Hagain).
  split; [|exact Hagain].
  rewrite (Hkeeps "retrain_models" _ eq_refl). reflexivity.
Defined.

(** X19.  [initialize] on a new service sets [is_running] and registers
    the four default tasks in the order cleanup_old_data, retrain_models,
    check_sensor_status, cleanup_notifications, each [PENDING] with
    [run_count = 0], starting 1 h, 2 h, 5 min and 6 h after the clock
    readings and recurring every 24 h, 7 d, 5 min and 24 h; no handler is
    invoked by a turn of the loop that comes less than five minutes after
    the earliest of the readings. *)
Theorem initialize_registers_defaults (utcnow : nat -> datetime) (t0 : datetime) :
  representable (utcnow 0%nat + timedelta_hours 1) = true ->
  representable (utcnow 2%nat + timedelta_hours 2) = true ->
  representable (utcnow 4%nat + timedelta_minutes 5) = true ->
  representable (utcnow 6%nat + timedelta_hours 6) = true ->
  (forall n, t0 <= utcnow n) ->
  let svc := initialize utcnow new_service in
  is_running svc = true /\
  get_all_tasks (scheduler svc)
  = [mkTaskInfo "cleanup_old_data" (utcnow 0%nat + timedelta_hours 1) (Some 86400) None 0
                LOW PENDING (utcnow 1%nat) None PyNone None;
     mkTaskInfo "retrain_models" (utcnow 2%nat + timedelta_hours 2) (Some 604800) None 0
                NORMAL PENDING (utcnow 3%nat) None PyNone None;
     mkTaskInfo "check_sensor_status" (utcnow 4%nat + timedelta_minutes 5) (Some 300) None 0
                HIGH PENDING (utcnow 5%nat) None PyNone None;
     mkTaskInfo "cleanup_notifications" (utcnow 6%nat + timedelta_hours 6) (Some 86400) None 0
                LOW PENDING (utcnow 7%nat) None PyNone None] /\
  forall current_time runs,
    current_time < t0 + timedelta_minutes 5 ->
    scheduler_loop_turn current_time runs svc = (svc, []).
Proof.
  intros H0 H2 H4 H6 Hclock. simpl.
  unfold initialize, _schedule_default_tasks, datetime_add. rewrite H0, H2, H4, H6.
  split; [done|]. split; [reflexivity|].
  intros current_time runs Hearly.
  set (self := (schedule_task "cleanup_notifications" _ _ _ _ _ _ _).1).
  unfold scheduler_loop_turn, scheduler_loop_iteration. cbn [scheduler_task is_running scheduler].
  rewrite scan_idle; [by destruct self|].
  assert (tasks self
          = [("cleanup_old_data"%string,
              mkTask "cleanup_old_data" ref_cleanup_old_data
                     (utcnow 0%nat + timedelta_hours 1) (Some 86400) None 0 LOW PENDING
                     (utcnow 1%nat) None PyNone None);
             ("retrain_models"%string,
              mkTask "retrain_models" ref_retrain_prediction_models
                     (utcnow 2%nat + timedelta_hours 2) (Some 604800) None 0 NORMAL PENDING
                     (utcnow 3%nat) None PyNone None);
             ("check_sensor_status"%string,
              mkTask "check_sensor_status" ref_check_sensor_status
                     (utcnow 4%nat + timedelta_minutes 5) (Some 300) None 0 HIGH PENDING
                     (utcnow 5%nat) None PyNone None);
             ("cleanup_notifications"%string,
              mkTask "cleanup_notifications" ref_cleanup_notifications
                     (utcnow 6%nat + timedelta_hours 6) (Some 86400) None 0 LOW PENDING
                     (utcnow 7%nat) None PyNone None)]) as -> by reflexivity.
  pose proof (Hclock 0%nat). pose proof (Hclock 2%nat).
  pose proof (Hclock 4%nat). pose proof (Hclock 6%nat).
  rewrite !Forall_cons.
  split_and!; [..|apply Forall_nil_2]; unfold is_due; simpl;
    apply Z.leb_gt; unfold timedelta_hours, timedelta_minutes, US_PER_SECOND in *; lia.
Qed.

(** The theorem at work with a clock that stands at 2024-01-01T00:00:00:
    four minutes later nothing runs. *)
Lemma initialize_registers_defaults_witness :
  let utcnow := fun _ : nat => T2024 in
  is_running (initialize utcnow new_service) = true /\
  length (get_all_tasks (scheduler (initialize utcnow new_service))) = 4%nat /\
  scheduler_loop_turn (utc 738886 240) (fun _ => ok_run (utc 738886 240) PyNone)
    (initialize utcnow new_service)
  = (initialize utcnow new_service, []).
Proof.
  intros utcnow.
  destruct (initialize_registers_defaults utcnow T2024 eq_refl eq_refl eq_refl eq_refl)
    as (Hrunning & Hall & Hquiet).
  - intros n. unfold utcnow. lia.
  - split; [exact Hrunning|]. split.
    + rewrite Hall. reflexivity.
    + apply Hquiet. reflexivity.
Defined.

(** ** The registry of a service that started empty *)

Section Consistency.

Implicit Types (self : SchedulerService) (k : string) (call : Call).

Lemma perform_keeps_identity call self k task :
  Registry.get k (tasks self) = Some task ->
  exists task', Registry.get k (tasks (perform call self).1) = Some task' /\
                same_identity task task'.
Proof.
  apply (perform_related same_identity); unfold same_identity; try done.
  - intros a b c (-> & -> & -> & -> & ->) (-> & -> & -> & -> & ->). done.
  - intros run t. unfold _execute_task, execute_body.
    by repeat (case_match; simplify_eq/=).
Qed.

(** A record that is in the registry after a call was there before it, or
    was created by the call under its own id and registered in
    [task_handlers]. *)
Lemma perform_origin call self k task' :
  Registry.get k (tasks (perform call self).1) = Some task' ->
  (exists task, Registry.get k (tasks self) = Some task /\ same_identity task task') \/
  (Registry.get k (tasks self) = None /\ id task' = k /\
   task_handlers (perform call self).1 !! k = Some (handler task')).
Proof.
  intros Hget'.
  destruct (Registry.get k (tasks self)) as [task|] eqn:Hget.
  { left. destruct (perform_keeps_identity call self k task Hget) as (task'' & Hget'' & Hsame).
    exists task. split; [done|]. congruence. }
  right. split; [done|].
  assert (Registry.get k (tasks (perform call self).1) = None ->
          id task' = k /\ task_handlers (perform call self).1 !! k = Some (handler task'))
    as Habsurd by congruence.
  destruct call; simpl in *;
    try (apply Habsurd; apply get_None;
         unfold cancel_task, pause_task, resume_task, reschedule_task, force_run_task,
           scheduler_loop_iteration;
         repeat (case_match; simplify_eq/=); rewrite ?keys_update;
         try (match goal with H : scan _ _ _ = _ |- _ =>
                apply (f_equal fst) in H; simpl in H; subst; rewrite keys_scan end);
         by apply get_None).
  revert Hget'. unfold schedule_task.
  destruct (Registry.get task_id (tasks self)) eqn:Hknown; simpl; [congruence|].
  rewrite get_add, Hget. case_decide; [|done]. intros [= <-]. subst. simpl.
  by rewrite lookup_insert_eq.
Qed.

Lemma perform_handlers call self k h :
  task_handlers (perform call self).1 !! k = Some h ->
  task_handlers self !! k = Some h \/
  (exists task', Registry.get k (tasks (perform call self).1) = Some task' /\
                 handler task' = h).
Proof.
  destruct call; simpl;
    unfold schedule_task, cancel_task, pause_task, resume_task, reschedule_task,
      force_run_task, scheduler_loop_iteration;
    repeat (case_match; simplify_eq/=); auto.
  - rewrite lookup_insert. case_decide; [|auto]. intros [= <-]. subst. right.
    eexists. rewrite get_add.
    match goal with H : Registry.get _ _ = None |- _ => rewrite H end.
    rewrite decide_True by done. split; reflexivity.
  - rewrite lookup_delete. case_decide; [done | auto].
Qed.

Lemma perform_consistent call self :
  (forall k task, Registry.get k (tasks self) = Some task -> id task = k) ->
  (forall k h, task_handlers self !! k = Some h ->
     exists task, Registry.get k (tasks self) = Some task /\ handler task = h) ->
  (forall k task, Registry.get k (tasks (perform call self).1) = Some task -> id task = k) /\
  (forall k h, task_handlers (perform call self).1 !! k = Some h ->
     exists task, Registry.get k (tasks (perform call self).1) = Some task /\
                  handler task = h).
Proof.
  intros Hids Hhandlers. split.
  - intros k task' Hget'.
    destruct (perform_origin call self k task' Hget')
      as [(task & Hget & Hid & _)|(_ & Hid & _)]; [|done].
    rewrite Hid. by apply Hids.
  - intros k h Hlookup.
    destruct (perform_handlers call self k h Hlookup) as [Hbefore|Hnew]; [|done].
    destruct (Hhandlers k h Hbefore) as (task & Hget & Hh).
    destruct (perform_keeps_identity call self k task Hget)
      as (task' & Hget' & _ & Hsame & _).
    exists task'. split; [done | congruence].
Qed.

End Consistency.

(** X20.  On a service that started empty, whatever calls were made:
    every record is stored under its own id, [get_all_tasks] lists no id
    twice, and [task_handlers] holds only ids of tasks of the registry, each
    with the handler of its record. *)
Theorem registry_is_consistent (history : list Call) :
  let self := (perform_all history init).1 in
  (forall task_id task, Registry.get task_id (tasks self) = Some task ->
                        id task = task_id) /\
  NoDup (info_id <$> get_all_tasks self) /\
  (forall task_id h, task_handlers self !! task_id = Some h ->
     exists task, Registry.get task_id (tasks self) = Some task /\ handler task = h).
Proof.
  simpl.
  assert (forall self,
            wf self ->
            (forall k task, Registry.get k (tasks self) = Some task -> id task = k) ->
            (forall k h, task_handlers self !! k = Some h ->
               exists task, Registry.get k (tasks self) = Some task /\ handler task = h) ->
            wf (perform_all history self).1 /\
            (forall k task, Registry.get k (tasks (perform_all history self).1) = Some task ->
                            id task = k) /\
            (forall k h, task_handlers (perform_all history self).1 !! k = Some h ->
               exists task, Registry.get k (tasks (perform_all history self).1) = Some task /\
                            handler task = h)) as Hinvariant.
  { induction history as [|call history IH]; intros self Hwf Hids Hhandlers; [done|].
    rewrite perform_all_cons. simpl.
    destruct (perform_consistent call self Hids Hhandlers) as [Hids' Hhandlers'].
    apply IH; [by apply perform_wf | done | done]. }
  destruct (Hinvariant init init_wf) as (Hwf & Hids & Hhandlers); [done | done |].
  split; [done|]. split; [|done].
  assert (info_id <$> get_all_tasks (perform_all history init).1
          = Registry.keys (tasks (perform_all history init).1)) as ->; [|exact Hwf].
  unfold get_all_tasks, Registry.keys, wf in *.
  revert Hwf Hids. generalize (tasks (perform_all history init).1).
  induction t as [|[k task] d IHd]; intros Hwf Hids; [done|].
  simpl in *. apply NoDup_cons in Hwf as [Hk Hd].
  rewrite (Hids k task) by (by rewrite decide_True). f_equal.
  apply IHd; [done|]. intros k' task' Hget'. apply Hids.
  rewrite decide_False; [done|]. intros ->. apply Hk.
  assert (k' ∉ d.*1 -> Registry.get k' d = None) as Hnone by apply get_None.
  destruct (decide (k' ∈ d.*1)); [done|]. rewrite Hnone in Hget' by done. done.
Qed.

(** The theorem at work after a bootstrap, a cancel and a second
    bootstrap. *)
Lemma registry_is_consistent_witness :
  let history := [Schedule "cleanup_old_data" ref_cleanup_old_data T2024 (Some 86400) None
                           LOW T2024;
                  Cancel "cleanup_old_data";
                  Schedule "cleanup_old_data" 9%nat T2024 None None HIGH T2024] in
  task_handlers (perform_all history init).1 !! "cleanup_old_data" = None /\
  NoDup (info_id <$> get_all_tasks (perform_all history init).1).
Proof.
  intros history. split; [reflexivity|].
  exact (proj1 (proj2 (registry_is_consistent history))).
Defined.

(** ** Completed tasks *)

(** X21.  A [COMPLETED] task stays [COMPLETED] and its handler is invoked
    neither by the loop nor otherwise as long as no caller applies
    [cancel], [reschedule] or [force_run] to it; [pause] and [resume] do
    not apply to it. *)
Theorem completed_is_final (history : list Call) (self : SchedulerService)
    (task_id : string) :
  wf self ->
  status_of task_id self = Some COMPLETED ->
  Forall (fun call => is_gentle_for task_id call = true) history ->
  status_of task_id (perform_all history self).1 = Some COMPLETED /\
  invocations_of task_id (perform_all history self).2 = [].
Proof.
  intros Hwf Hcompleted Hhistory.
  assert (Forall (fun call => is_reschedule_of task_id call || is_cancel_of task_id call
                              || is_force_run_of task_id call = false) history) as Hnone.
  { eapply Forall_impl; [exact Hhistory|]. simpl. intros call.
    unfold is_gentle_for. rewrite negb_true_iff, !orb_false_iff. tauto. }
  apply perform_all_idle; [done | done | done | | | right | by left]; avoids Hnone.
Qed.

(** The theorem at work on the one-shot task of [completed_state]. *)
Lemma completed_is_final_witness :
  let runs := fun _ : string => ok_run (utc 738886 90) PyNone in
  let history := [Tick (utc 738886 90) runs; Pause "job";
                  Resume "job" (Some T2024) (utc 738886 95); Tick (utc 738886 120) runs] in
  status_of "job" (perform_all history completed_state).1 = Some COMPLETED /\
  invocations_of "job" (perform_all history completed_state).2 = [].
Proof.
  intros runs history.
  apply (completed_is_final history completed_state "job").
  - apply (perform_all_wf _ init), init_wf.
  - reflexivity.
  - repeat constructor.
Defined.

(** ** The theorems on [reschedule_task] and on the order of dispatch at
    work *)

(** A cancelled task is rescheduled with [new_interval = 0]: it is
    [PENDING] again, keeps its interval of 60 seconds, and is still missing
    from [task_handlers]. *)
Lemma reschedule_task_spec_witness :
  let result := reschedule_task "job" (utc 738886 600) (Some 0) cancelled_state in
  result.2 = true /\
  status_of "job" result.1 = Some PENDING /\
  (interval_seconds <$> Registry.get "job" (tasks result.1)) = Some (Some 60) /\
  task_handlers result.1 !! "job" = None.
Proof.
  intros result.
  pose proof (reschedule_task_spec "job" (utc 738886 600) (Some 0) cancelled_state)
    as (Hok & (task' & Hget & Hstatus & _ & Hinterval & _) & Hhandlers & _).
  subst result. split; [exact Hok|]. split; [|split].
  - unfold status_of. rewrite Hget. exact (f_equal Some Hstatus).
  - rewrite Hget. exact (f_equal Some Hinterval).
  - rewrite Hhandlers. reflexivity.
Defined.

(** A [LOW] task scheduled first runs before an [URGENT] one scheduled
    second. *)
Lemma loop_dispatch_order_witness :
  let self :=
    (perform_all [Schedule "sweep" 1%nat T2024 None None LOW T2024;
                  Schedule "alarm" 2%nat T2024 None None URGENT T2024] init).1 in
  (scheduler_loop_iteration (utc 738886 30) (fun _ => ok_run (utc 738886 30) PyNone) self).2
  = [Invoked ByLoop "sweep" 1%nat; Invoked ByLoop "alarm" 2%nat].
Proof.
  intros self.
  etrans; [apply (loop_dispatch_order (utc 738886 30)
                    (fun _ => ok_run (utc 738886 30) PyNone) self) | reflexivity].
Defined.
